(** * behavior_trends_analysis: the retail-transactions pipeline

    A shallow embedding of [behavior_trends_analysis.py]: the loader
    [import_data], the cleaner [filter_data] and the four aggregators
    [loyalty_customers], [quarterly_revenue], [high_demand_products] and
    [purchase_patterns].

    Data frames are Python objects: a function receives a reference, may
    write through it, and hands back a reference to the frame it built.
    The embedding therefore threads a store of frames through every call.
    A quantity is a cell of an [int64] column, and a sum of quantities
    wraps around at 64 bits as NumPy's does. Prices, revenues and means
    are exact rationals in [Q]: the rounding of floats is outside the
    model. The pandas calls are modelled with the defaults the code leaves
    them at. *)

From Stdlib Require Import QArith Ascii.
From stdpp Require Import base list strings sorting numbers gmap.

Local Open Scope Z_scope.

(** ** Rows and frames *)

(** A timestamp, as far as the calendar is concerned. *)
Record Timestamp := mkTimestamp { year : Z; month : Z; day : Z }.

(** What an [InvoiceDate] cell may hold when [pd.to_datetime] meets it:
    a null ([None], [NaN], [NaT]), a timestamp (a datetime, or text the
    library converts to that timestamp), or text the library rejects. *)
Inductive DateCell :=
  | NaT
  | Datetime (t : Timestamp)
  | BadDate (raw : string).

(** One transaction. [CustomerID] is [None] for a null cell. [Quantity]
    is a cell of an [int64] column, a number from [- 2 ^ 63] to
    [2 ^ 63 - 1]. [TransactionRevenue] is the column [quarterly_revenue]
    adds; it is [None] in a frame that does not have it. *)
Record Row := mkRow {
  CustomerID : option Z;
  InvoiceNo : string;
  Description : string;
  Quantity : Z;
  UnitPrice : Q;
  InvoiceDate : DateCell;
  TransactionRevenue : option Q
}.

(** The frames of the program: the transaction table and the four summary
    tables, with the columns the code names them. *)
Inductive DataFrame :=
  | Transactions (rows : list Row)
  | LoyaltyTable (rows : list (Z * Z))           (* CustomerID, PurchaseCount *)
  | RevenueTable (rows : list (Timestamp * Q))   (* period, revenue *)
  | ProductTable (rows : list (string * Z))      (* ProductName, TotalSold *)
  | PatternTable (rows : list (string * Q * Q)). (* item, mean_quantity, mean_price *)

Global Instance Timestamp_eq_dec : EqDecision Timestamp.
Proof. solve_decision. Defined.

Global Instance DateCell_eq_dec : EqDecision DateCell.
Proof. solve_decision. Defined.

(** ** The store and the monad of calls *)

Abbreviation loc := nat (only parsing).
Abbreviation Store := (list DataFrame) (only parsing).

(** The exceptions the calls raise. A [KeyError] is kept with the name of
    the missing column, not with the wording of the library's message. *)
Inductive Exception :=
  | ValueError (msg : string)
  | KeyError (column : string)
  | AttributeError.

Inductive Result (A : Type) :=
  | Ok (a : A)
  | Raise (e : Exception).
Arguments Ok {A} a.
Arguments Raise {A} e.

(** A call runs on a store and leaves a store, whether it returns or
    raises. *)
Definition M (A : Type) : Type := Store → Store * Result A.

Global Instance M_ret : MRet M := λ A a st, (st, Ok a).
Global Instance M_bind : MBind M := λ A B f m st,
  match m st with
  | (st', Ok a) => f a st'
  | (st', Raise e) => (st', Raise e)
  end.

(** A library call that touches no frame: it returns or raises. *)
Definition lift {A} (r : Result A) : M A := λ st, (st, r).

(** The columns of a frame. A transaction table has the six columns of
    the workbook, and [TransactionRevenue] once [quarterly_revenue] has
    written it, which no function reads before writing it. *)
Definition columns (f : DataFrame) : list string :=
  match f with
  | Transactions _ =>
      ["CustomerID"; "InvoiceNo"; "Description"; "Quantity"; "UnitPrice"; "InvoiceDate"]
  | LoyaltyTable _ => ["CustomerID"; "PurchaseCount"]
  | RevenueTable _ => ["period"; "revenue"]
  | ProductTable _ => ["ProductName"; "TotalSold"]
  | PatternTable _ => ["item"; "mean_quantity"; "mean_price"]
  end.

(** The first of the columns [asked] for that is not among [present]
    (the empty name when none is missing). *)
Fixpoint first_missing (present asked : list string) : string :=
  match asked with
  | [] => EmptyString
  | column :: asked' =>
      if decide (column ∈ present) then first_missing present asked' else column
  end.

(** Selecting columns of the frame behind a reference, [asked] listing
    them in the order in which the code names them. A transaction table
    has them all and hands over its rows. On any other frame the first
    column that the frame lacks gives pandas' [KeyError], which carries
    the name of that column; every function of the module asks for a
    column that only a transaction table has (lemma
    [summary_lacks_column]). *)
Definition get_transactions (asked : list string) (df : loc) : M (list Row) := λ st,
  match st !! df with
  | Some (Transactions rows) => (st, Ok rows)
  | Some f => (st, Raise (KeyError (first_missing (columns f) asked)))
  | None => (st, Raise (KeyError (first_missing [] asked)))
  end.

(** A frame built by a pandas call is a new object. *)
Definition new_frame (f : DataFrame) : M loc := λ st, (st ++ [f], Ok (length st)).

(** [df[col] = values] writes into the frame behind [df]. *)
Definition set_frame (df : loc) (f : DataFrame) : M unit := λ st,
  (<[df := f]> st, Ok tt).

(** ** import_data *)

Module Loader.

(** [s.split(sep)] for a one-character separator: the pieces between
    the separators, never an empty list. *)
Fixpoint split (sep : ascii) (s : string) : list string :=
  match s with
  | EmptyString => [EmptyString]
  | String c rest =>
      if Ascii.eqb c sep then EmptyString :: split sep rest
      else match split sep rest with
           | piece :: pieces => String c piece :: pieces
           | [] => [String c EmptyString]
           end
  end.

(** [str.lower] on one character of ASCII: the letters A to Z change. A
    path is held as the bytes of its UTF-8 text, and the bytes of other
    characters are left as they are. [str.lower] changes some of those
    characters too, none of them into a dot or into a letter of [xlsx] or
    [csv], so the comparison with these two words comes out the same. *)
Definition lower_char (c : ascii) : ascii :=
  let n := nat_of_ascii c in
  if ((65 <=? n)%nat && (n <=? 90)%nat)%bool then ascii_of_nat (n + 32) else c.

Fixpoint lower (s : string) : string :=
  match s with
  | EmptyString => EmptyString
  | String c rest => String (lower_char c) (lower rest)
  end.

Definition file_extension (file_path : string) : string :=
  lower (List.last (split "." file_path) EmptyString).

(** The library call the loader hands the path to. *)
Inductive Read :=
  | read_excel (file_path : string)
  | read_csv (file_path : string).

Definition UnsupportedFormat : Exception :=
  ValueError "File format not supported. Use .xlsx or .csv files.".

Definition import_data (file_path : string) : Result Read :=
  if String.eqb (file_extension file_path) "xlsx" then Ok (read_excel file_path)
  else if String.eqb (file_extension file_path) "csv" then Ok (read_csv file_path)
  else Raise UnsupportedFormat.

End Loader.

(** ** The pandas operations the program calls *)

Module pd.

(** [df.dropna(subset=[col])]: the rows whose [col] cell is not null, in
    their order. *)
Definition dropna {A B} (col : A → option B) (rows : list A) : list A :=
  filter (λ r, is_Some (col r)) rows.

(** [df[mask]] for a boolean column [mask]: the rows at which the mask
    holds [True]. *)
Fixpoint getitem {A} (rows : list A) (mask : list bool) : list A :=
  match rows, mask with
  | r :: rows', b :: mask' =>
      if b then r :: getitem rows' mask' else getitem rows' mask'
  | _, _ => []
  end.

(** [df.groupby(key)] with its defaults [sort=True] and [dropna=True]:
    one group per distinct non-null key, the groups in ascending key
    order, each group holding its rows in their order. *)
Section groupby.
Context {K : Type} `{EqDecision K} (le : relation K) `{!RelDecision le}.
Context {A : Type} (key : A → option K).

Definition group_keys (rows : list A) : list K :=
  merge_sort le (remove_dups (omap key rows)).

Definition groupby (rows : list A) : list (K * list A) :=
  (λ k, (k, filter (λ r, key r = Some k) rows)) <$> group_keys rows.
End groupby.

(** [Series.nunique()]: the number of distinct values. *)
Definition nunique `{EqDecision B} (values : list B) : Z :=
  Z.of_nat (length (remove_dups values)).

(** A signed 64-bit integer: the value that an [int64] cell holds after an
    operation whose mathematical result is [z]. NumPy does not check for
    overflow; the result wraps around. *)
Definition int64 (z : Z) : Z := (z + 2 ^ 63) mod 2 ^ 64 - 2 ^ 63.

(** [Series.sum()] over an [int64] column, such as [Quantity]: the sum
    is an [int64] too. Over prices, which are floats, the sum and
    [Series.mean()] are taken as exact. The mean of an [int64] column is
    computed in floats as well. *)
Definition sum (values : list Z) : Z := int64 (foldr Z.add 0 values).
Definition qsum (values : list Q) : Q := foldr Qplus 0%Q values.
Definition mean (values : list Q) : Q :=
  (qsum values / inject_Z (Z.of_nat (length values)))%Q.

(** [df.head(n)]: the first [n] rows; all but the last [-n] when [n] is
    negative. *)
Definition head {A} (n : Z) (rows : list A) : list A :=
  if 0 <=? n then take (Z.to_nat n) rows
  else take (length rows - Z.to_nat (- n)) rows.

(** [pd.to_datetime(column)] with its default [errors='raise']: nulls
    become [NaT], timestamps stay, and one cell that cannot be parsed
    makes the call raise. *)
Fixpoint to_datetime (column : list DateCell) : Result (list DateCell) :=
  match column with
  | [] => Ok []
  | BadDate raw :: _ => Raise (ValueError raw)
  | cell :: rest =>
      match to_datetime rest with
      | Ok rest' => Ok (cell :: rest')
      | Raise e => Raise e
      end
  end.

(** The calendar quarter of a timestamp, counted from year 0, and the
    last day of a quarter, which labels it. *)
Definition quarter_index (t : Timestamp) : Z :=
  4 * year t + (month t - 1) / 3.

Definition quarter_end (q : Z) : Timestamp :=
  let m := 3 * (q mod 4) + 3 in
  {| year := q / 4; month := m;
     day := if ((m =? 3) || (m =? 12))%bool then 31 else 30 |}.

Definition row_quarter (r : Row) : option Z :=
  match InvoiceDate r with
  | Datetime t => Some (quarter_index t)
  | _ => None
  end.

(** [df.groupby(pd.Grouper(key='InvoiceDate', freq='Q'))[col].sum()]:
    the bins are the consecutive quarters from the one of the earliest
    timestamp to the one of the latest, rows dated [NaT] fall in no bin,
    and the sum of a bin without rows is 0. The library computes the
    range of the bins from the earliest and the latest timestamp; on a
    frame with rows of which none has a timestamp it raises
    [AttributeError]. *)
Definition groupby_quarter_sum (rows : list Row) : Result (list (Timestamp * Q)) :=
  match rows with
  | [] => Ok []
  | _ =>
      match omap row_quarter rows with
      | [] => Raise AttributeError
      | q :: qs =>
          let first := foldr Z.min q qs in
          let last := foldr Z.max q qs in
          Ok ((λ b, (quarter_end b,
                     qsum (omap TransactionRevenue
                             (filter (λ r, row_quarter r = Some b) rows))))
                <$> seqZ first (last - first + 1))
      end
  end.

End pd.

(** The order of [str] values: by code point, which on the bytes of UTF-8
    text is the lexicographic order of the bytes. *)
Definition string_le (s1 s2 : string) : Prop := String.leb s1 s2 = true.

Global Instance string_le_dec : RelDecision string_le :=
  λ s1 s2, decide (String.leb s1 s2 = true).

(** ** filter_data *)

Definition cleaned_data (rows : list Row) : list Row :=
  let valid_data := pd.dropna CustomerID rows in
  let mask := (λ r, (0 <=? Quantity r) && Qle_bool 0 (UnitPrice r)) <$> valid_data in
  pd.getitem valid_data mask.

Definition filter_data (dataset : loc) : M loc :=
  rows ← get_transactions ["CustomerID"; "Quantity"; "UnitPrice"] dataset;
  new_frame (Transactions (cleaned_data rows)).

(** ** quarterly_revenue *)

Definition set_InvoiceDate (r : Row) (d : DateCell) : Row :=
  mkRow (CustomerID r) (InvoiceNo r) (Description r) (Quantity r) (UnitPrice r)
        d (TransactionRevenue r).

Definition set_TransactionRevenue (r : Row) (v : Q) : Row :=
  mkRow (CustomerID r) (InvoiceNo r) (Description r) (Quantity r) (UnitPrice r)
        (InvoiceDate r) (Some v).

Definition quarterly_revenue (transactions : loc) : M loc :=
  rows ← get_transactions ["InvoiceDate"] transactions;
  dates ← lift (pd.to_datetime (InvoiceDate <$> rows));
  set_frame transactions (Transactions (zip_with set_InvoiceDate rows dates));;
  rows ← get_transactions ["UnitPrice"; "Quantity"] transactions;
  set_frame transactions
    (Transactions ((λ r, set_TransactionRevenue r
                           (UnitPrice r * inject_Z (Quantity r))%Q) <$> rows));;
  rows ← get_transactions ["InvoiceDate"; "TransactionRevenue"] transactions;
  quarterly_summary ← lift (pd.groupby_quarter_sum rows);
  new_frame (RevenueTable quarterly_summary).

(** ** purchase_patterns *)

Definition product_analysis (rows : list Row) : list (string * Q * Q) :=
  (λ g, (g.1, pd.mean ((λ r, inject_Z (Quantity r)) <$> g.2),
              pd.mean (UnitPrice <$> g.2)))
    <$> pd.groupby string_le (λ r, Some (Description r)) rows.

Definition purchase_patterns (sales_data : loc) : M loc :=
  rows ← get_transactions ["Description"; "Quantity"; "UnitPrice"] sales_data;
  new_frame (PatternTable (product_analysis rows)).

(** ** loyalty_customers and high_demand_products *)

Definition descending {A} (col : A → Z) : relation A := λ x y, col y ≤ col x.

Global Instance descending_dec {A} (col : A → Z) : RelDecision (descending col) :=
  λ x y, decide (col y ≤ col x).

(** [df.sort_values(col, ascending=False)] with the default
    [kind='quicksort']: the rows reordered so that [col] descends. The
    library documents this algorithm as not stable, so nothing more is
    promised of the order of rows with equal [col]; the two functions that
    sort take the sort as a parameter that meets this much. *)
Definition sorts_descending (sort : ∀ A : Type, (A → Z) → list A → list A) : Prop :=
  (∀ A (col : A → Z) (rows : list A), sort A col rows ≡ₚ rows) ∧
  (∀ A (col : A → Z) (rows : list A),
      StronglySorted (descending col) (sort A col rows)).


Section Sorted.
Variable sort_values : ∀ A : Type, (A → Z) → list A → list A.

Definition customer_purchases (rows : list Row) : list (Z * Z) :=
  (λ g, (g.1, pd.nunique (InvoiceNo <$> g.2)))
    <$> pd.groupby Z.le CustomerID rows.

Definition loyal_customers (rows : list Row) (min_purchases : Z) : list (Z * Z) :=
  let customer_purchases := customer_purchases rows in
  let loyal_customers :=
    pd.getitem customer_purchases
      ((λ c, min_purchases <=? c.2) <$> customer_purchases) in
  sort_values _ snd loyal_customers.

Definition loyalty_customers (df : loc) (min_purchases : Z) : M loc :=
  rows ← get_transactions ["CustomerID"; "InvoiceNo"] df;
  new_frame (LoyaltyTable (loyal_customers rows min_purchases)).

Definition product_sales (rows : list Row) : list (string * Z) :=
  (λ g, (g.1, pd.sum (Quantity <$> g.2)))
    <$> pd.groupby string_le (λ r, Some (Description r)) rows.

Definition bestsellers (rows : list Row) (limit : Z) : list (string * Z) :=
  pd.head limit (sort_values _ snd (product_sales rows)).

Definition high_demand_products (sales_data : loc) (limit : Z) : M loc :=
  rows ← get_transactions ["Description"; "Quantity"] sales_data;
  new_frame (ProductTable (bestsellers rows limit)).
End Sorted.

(** A sort that meets [sorts_descending] and [keeps_ties]: insertion from
    the right, which moves a row past the rows of greater [col] only. *)
Fixpoint insert_desc {A} (col : A → Z) (x : A) (rows : list A) : list A :=
  match rows with
  | [] => [x]
  | y :: rows' =>
      if col x <? col y then y :: insert_desc col x rows' else x :: rows
  end.

Definition stable_sort_desc (A : Type) (col : A → Z) (rows : list A) : list A :=
  foldr (insert_desc col) [] rows.

(** ** What the specification speaks of *)

(** A row the cleaner is to keep. *)
Definition valid (r : Row) : Prop :=
  is_Some (CustomerID r) ∧ 0 ≤ Quantity r ∧ (0 <= UnitPrice r)%Q.

(** The same, as the two tests of the code put it. *)
Definition keeps (r : Row) : Prop :=
  (0 <=? Quantity r) && Qle_bool 0 (UnitPrice r) = true ∧ is_Some (CustomerID r).

(** The sum of a column of integers as a number, without the bound of
    a machine integer, and the numbers an [int64] can hold. *)
Definition total (values : list Z) : Z := foldr Z.add 0 values.

Definition fits_int64 (z : Z) : Prop := - 2 ^ 63 ≤ z < 2 ^ 63.

(** The quantity sold of one product. *)
Definition quantity_sold (name : string) (rows : list Row) : Z :=
  total (Quantity <$> filter (λ r, Description r = name) rows).

(** A text of ASCII characters: on these [Loader.lower] is [str.lower]. *)
Definition ascii_text (s : string) : Prop :=
  forallb (λ c, (nat_of_ascii c <? 128)%nat) (String.list_ascii_of_string s) = true.

(** A string without a dot. *)
Fixpoint has_dot (s : string) : bool :=
  match s with
  | EmptyString => false
  | String c rest => Ascii.eqb c "." || has_dot rest
  end.

Definition no_dot (s : string) : Prop := has_dot s = false.

(** The revenue of a row, and the row once [quarterly_revenue] has
    written it in the new column. *)
Definition revenue (r : Row) : Q := (UnitPrice r * inject_Z (Quantity r))%Q.

Definition with_revenue (r : Row) : Row := set_TransactionRevenue r (revenue r).

(** Every date of the table is null or a timestamp, and at least one is
    a timestamp. *)
Definition dates_parse (rows : list Row) : Prop :=
  ∀ r raw, r ∈ rows → InvoiceDate r ≠ BadDate raw.

Definition some_dated (rows : list Row) : Prop :=
  ∃ r t, r ∈ rows ∧ InvoiceDate r = Datetime t.

(** The revenue of the rows dated in quarter [q]. *)
Definition quarter_revenue (q : Z) (rows : list Row) : Q :=
  pd.qsum (revenue <$> filter (λ r, pd.row_quarter r = Some q) rows).

(** Earlier in the calendar. *)
Definition chronological (t1 t2 : Timestamp) : Prop :=
  year t1 < year t2 ∨
  (year t1 = year t2 ∧
   (month t1 < month t2 ∨ (month t1 = month t2 ∧ day t1 < day t2))).

(** The rows with a date, null ones left out. *)
Definition dated (rows : list Row) : list Row :=
  filter (λ r, InvoiceDate r ≠ NaT) rows.



(** The distinct values of a column in the order of their first
    appearance. *)
Definition first_appearance `{EqDecision A} (values : list A) : list A :=
  foldl (λ seen x, if decide (x ∈ seen) then seen else seen ++ [x]) [] values.

(** The product names of a summary of [purchase_patterns]. *)
Definition items (summary : list (string * Q * Q)) : list string :=
  (λ x, x.1.1) <$> summary.

(** Sample rows. *)
Definition row (c : option Z) (i d : string) (q : Z) (p : Q) (t : DateCell) : Row :=
  mkRow c i d q p t None.

Definition on (y m d : Z) : DateCell := Datetime (mkTimestamp y m d).

Definition ledger : list Row :=
  [ row (Some 17850) "536365" "LANTERN" 6 (255 # 100) (on 2010 12 1);
    row None "536366" "LANTERN" 2 (255 # 100) (on 2010 12 1);
    row (Some 13047) "536367" "TEAPOT" (-3) (4 # 1) (on 2011 1 4);
    row (Some 13047) "536368" "BELL" 1 (-(1 # 2)) NaT;
    row (Some 12583) "536370" "BELL" 24 (1 # 2) (on 2011 7 9) ].

Definition two_products : list Row :=
  [ row (Some 13047) "536367" "TEAPOT" 2 (10 # 1) (on 2011 1 4);
    row (Some 12583) "536370" "BELL" 24 (1 # 2) (on 2011 7 9);
    row (Some 17850) "536372" "TEAPOT" 4 (20 # 1) (on 2011 7 11) ].

Definition two_customers : list Row :=
  [ row (Some 1) "I1" "TEAPOT" 2 (10 # 1) (on 2011 1 4);
    row (Some 1) "I1" "BELL" 1 (1 # 2) (on 2011 1 4);
    row (Some 1) "I2" "BELL" 3 (1 # 2) (on 2011 2 9);
    row (Some 2) "I3" "TEAPOT" 4 (20 # 1) (on 2011 7 11) ].

Definition three_products : list Row :=
  [ row (Some 1) "I1" "A" 5 (1 # 1) (on 2011 1 4);
    row (Some 1) "I1" "C" 4 (1 # 1) (on 2011 1 4);
    row (Some 2) "I2" "B" 9 (1 # 1) (on 2011 1 5);
    row (Some 2) "I3" "C" 5 (1 # 1) (on 2011 1 6) ].

Definition tied : list Row :=
  [ row (Some 13047) "536367" "TEAPOT" 5 (10 # 1) (on 2011 1 4);
    row (Some 12583) "536370" "BELL" 5 (1 # 2) (on 2011 7 9) ].

Definition gap : list Row :=
  [ row (Some 13047) "536367" "TEAPOT" 1 (10 # 1) (on 2011 1 4);
    row (Some 13047) "536368" "TEAPOT" 2 (10 # 1) (on 2011 3 31);
    row (Some 12583) "536370" "BELL" 5 (1 # 1) (on 2011 7 9) ].

Definition undated : list Row :=
  [ row (Some 13047) "536367" "TEAPOT" 1 (10 # 1) (on 2011 1 4);
    row (Some 12583) "536370" "BELL" 10 (1 # 2) NaT ].

Definition misdated : list Row :=
  [ row (Some 13047) "536367" "TEAPOT" 1 (10 # 1) (on 2011 1 4);
    row (Some 12583) "536370" "BELL" 10 (1 # 2) (BadDate "unknown") ].

(** Product A sold [2 ^ 63] pieces in two invoices, product B one piece. *)
Definition bulk : list Row :=
  [ row (Some 1) "I1" "A" (2 ^ 62) (1 # 1) (on 2011 1 4);
    row (Some 1) "I2" "A" (2 ^ 62) (1 # 1) (on 2011 1 5);
    row (Some 2) "I3" "B" 1 (1 # 1) (on 2011 1 6) ].

(** ** The rest of the module *)

(** A frame that is not a transaction table: what an aggregator returns. *)
Definition is_summary (f : DataFrame) : Prop :=
  match f with
  | Transactions _ => False
  | _ => True
  end.

(** A call that raises [KeyError] for [column] and leaves the store as it
    was. *)
Definition raises_KeyError (call : M loc) (column : string) (st : Store) : Prop :=
  call st = (st, Raise (KeyError column)).

(** [answer_conceptual_questions]: a dictionary from question numbers to
    sets of answer letters. *)
Definition answer_conceptual_questions : gmap string (gset string) :=
  <["Q1" := {["A"]}]> (<["Q2" := {["B"]}]> (<["Q3" := {["C"]}]>
    (<["Q4" := {["A"]} ∪ {["B"]}]> (<["Q5" := {["A"]}]> ∅)))).

(** The statements of the module outside its functions, run from top to
    bottom when the module is loaded: each [def] binds a name, the
    assignments bind the names of the tables, and a name that is read
    must have been bound. *)
Module Script.

Inductive Value :=
  | Library
  | Function (name : string)
  | Frame (l : loc)
  | Int (n : Z)
  | Dict (d : gmap string (gset string)).

Inductive Printed :=
  | PrintedFrame (f : DataFrame)
  | PrintedDict (d : gmap string (gset string)).

Inductive Error :=
  | NameError (name : string)
  | TypeError
  | Raised (e : Exception).

Inductive Outcome (A : Type) :=
  | Done (a : A)
  | Failed (e : Error).
Arguments Done {A} a.
Arguments Failed {A} e.

Record State := mkState {
  globals : gmap string Value;
  frames : Store;
  stdout : list Printed
}.

Definition Run (A : Type) : Type := State → State * Outcome A.

Global Instance Run_ret : MRet Run := λ A a s, (s, Done a).
Global Instance Run_bind : MBind Run := λ A B f m s,
  match m s with
  | (s', Done a) => f a s'
  | (s', Failed e) => (s', Failed e)
  end.

(** Reading a global name. *)
Definition name (x : string) : Run Value := λ s,
  match globals s !! x with
  | Some v => (s, Done v)
  | None => (s, Failed (NameError x))
  end.

(** [x = v] and [def x]. *)
Definition bind_name (x : string) (v : Value) : Run unit := λ s,
  (mkState (<[x := v]> (globals s)) (frames s) (stdout s), Done tt).

(** Calling into the functions of the module, which work on the frames. *)
Definition call {A} (m : M A) : Run A := λ s,
  match m (frames s) with
  | (st, Ok a) => (mkState (globals s) st (stdout s), Done a)
  | (st, Raise e) => (mkState (globals s) st (stdout s), Failed (Raised e))
  end.

Definition frame_of (v : Value) : Run loc := λ s,
  match v with
  | Frame l => (s, Done l)
  | _ => (s, Failed TypeError)
  end.

Definition int_of (v : Value) : Run Z := λ s,
  match v with
  | Int n => (s, Done n)
  | _ => (s, Failed TypeError)
  end.

Definition dict_of (v : Value) : Run (gmap string (gset string)) := λ s,
  match v with
  | Dict d => (s, Done d)
  | _ => (s, Failed TypeError)
  end.

(** [df.head()]: the first five rows. *)
Definition head5 (f : DataFrame) : DataFrame :=
  match f with
  | Transactions rows => Transactions (pd.head 5 rows)
  | LoyaltyTable rows => LoyaltyTable (pd.head 5 rows)
  | RevenueTable rows => RevenueTable (pd.head 5 rows)
  | ProductTable rows => ProductTable (pd.head 5 rows)
  | PatternTable rows => PatternTable (pd.head 5 rows)
  end.

Definition print (show : DataFrame → DataFrame) (l : loc) : Run unit := λ s,
  match frames s !! l with
  | Some f => (mkState (globals s) (frames s) (stdout s ++ [PrintedFrame (show f)]),
               Done tt)
  | None => (s, Failed TypeError)
  end.

Definition print_dict (d : gmap string (gset string)) : Run unit := λ s,
  (mkState (globals s) (frames s) (stdout s ++ [PrintedDict d]), Done tt).

Section body.
Variable sort_values : ∀ A : Type, (A → Z) → list A → list A.
Variable read_excel : string → M loc.

Definition module_body : Run unit :=
  bind_name "pd" Library;;
  bind_name "import_data" (Function "import_data");;
  bind_name "filter_data" (Function "filter_data");;
  (* raw_data = pd.read_excel("Customer_Behavior.xlsx") *)
  _ ← name "pd";
  raw ← call (read_excel "Customer_Behavior.xlsx");
  bind_name "raw_data" (Frame raw);;
  (* clean_data = filter_data(raw_data) *)
  _ ← name "filter_data";
  raw_data ← name "raw_data" ≫= frame_of;
  clean ← call (filter_data raw_data);
  bind_name "clean_data" (Frame clean);;
  (* print(clean_data.head()) *)
  clean_data ← name "clean_data" ≫= frame_of;
  print head5 clean_data;;
  bind_name "loyalty_customers" (Function "loyalty_customers");;
  bind_name "min_purchases" (Int 5);;
  (* loyal_customers_df = loyalty_customers(df_filtered, min_purchases) *)
  _ ← name "loyalty_customers";
  df_filtered ← name "df_filtered" ≫= frame_of;
  min_purchases ← name "min_purchases" ≫= int_of;
  loyal ← call (loyalty_customers sort_values df_filtered min_purchases);
  bind_name "loyal_customers_df" (Frame loyal);;
  (* print(loyal_customers_df) *)
  loyal_customers_df ← name "loyal_customers_df" ≫= frame_of;
  print id loyal_customers_df;;
  bind_name "quarterly_revenue" (Function "quarterly_revenue");;
  (* revenue_report = quarterly_revenue(clean_data) *)
  _ ← name "quarterly_revenue";
  clean_data ← name "clean_data" ≫= frame_of;
  report ← call (quarterly_revenue clean_data);
  bind_name "revenue_report" (Frame report);;
  (* print(revenue_report) *)
  revenue_report ← name "revenue_report" ≫= frame_of;
  print id revenue_report;;
  bind_name "high_demand_products" (Function "high_demand_products");;
  bind_name "n_top_products" (Int 10);;
  (* top_products = high_demand_products(clean_data, n_top_products) *)
  _ ← name "high_demand_products";
  clean_data ← name "clean_data" ≫= frame_of;
  n_top_products ← name "n_top_products" ≫= int_of;
  top ← call (high_demand_products sort_values clean_data n_top_products);
  bind_name "top_products" (Frame top);;
  (* print(top_products) *)
  top_products ← name "top_products" ≫= frame_of;
  print id top_products;;
  bind_name "purchase_patterns" (Function "purchase_patterns");;
  (* product_summary = purchase_patterns(clean_data) *)
  _ ← name "purchase_patterns";
  clean_data ← name "clean_data" ≫= frame_of;
  summary ← call (purchase_patterns clean_data);
  bind_name "product_summary" (Frame summary);;
  (* print(product_summary) *)
  product_summary ← name "product_summary" ≫= frame_of;
  print id product_summary;;
  bind_name "answer_conceptual_questions" (Function "answer_conceptual_questions");;
  (* answers_dict = answer_conceptual_questions() *)
  _ ← name "answer_conceptual_questions";
  bind_name "answers_dict" (Dict answer_conceptual_questions);;
  (* print(answers_dict) *)
  answers_dict ← name "answers_dict" ≫= dict_of;
  print_dict answers_dict.

End body.

(** The module is loaded with no name of its own bound yet. *)
Definition at_load (st : Store) : State := mkState ∅ st [].

(** A reader that finds the workbook and loads [rows] from it. *)
Definition reads (rows : list Row) : string → M loc :=
  λ _, new_frame (Transactions rows).

End Script.

(** * Theorems *)

(** ** The store *)

Lemma get_transactions_run (st : Store) (asked : list string) (df : loc) (rows : list Row) :
  st !! df = Some (Transactions rows) →
  get_transactions asked df st = (st, Ok rows).
Proof. intros H. unfold get_transactions. by rewrite H. Qed.

Lemma lookup_new_frame (st : Store) (f : DataFrame) :
  (st ++ [f]) !! length st = Some f.
Proof. rewrite lookup_app_r by lia. by rewrite Nat.sub_diag. Qed.


(** ** import_data *)

Section LoaderFacts.
Import Loader.

Lemma split_nonempty (sep : ascii) (s : string) : split sep s ≠ [].
Proof.
  destruct s as [|c s]; simpl; [done|].
  destruct (Ascii.eqb c sep); [done|]. by destruct (split sep s).
Qed.

Lemma split_no_dot (s : string) : no_dot s → split "." s = [s].
Proof.
  unfold no_dot. induction s as [|c s IH]; simpl; [done|].
  destruct (Ascii.eqb c ".") eqn:E; simpl; [done|].
  intros H. by rewrite IH.
Qed.

Lemma split_last_dot (stem ext : string) :
  no_dot ext → split "." (stem +:+ "." +:+ ext) = split "." stem ++ [ext].
Proof.
  intros Hext. induction stem as [|c stem IH]; simpl.
  - by rewrite split_no_dot.
  - rewrite IH. destruct (Ascii.eqb c "."); [done|].
    pose proof (split_nonempty "." stem) as Hne.
    by destruct (split "." stem).
Qed.

Lemma file_extension_last_dot (stem ext : string) :
  no_dot ext → file_extension (stem +:+ "." +:+ ext) = lower ext.
Proof.
  intros Hext. unfold file_extension.
  by rewrite split_last_dot, last_last.
Qed.

Lemma file_extension_no_dot (name : string) :
  no_dot name → file_extension name = lower name.
Proof. intros H. unfold file_extension. by rewrite split_no_dot. Qed.

Lemma import_data_cases (file_path : string) :
  import_data file_path =
    if decide (file_extension file_path = "xlsx") then Ok (read_excel file_path)
    else if decide (file_extension file_path = "csv") then Ok (read_csv file_path)
    else Raise UnsupportedFormat.
Proof.
  unfold import_data.
  destruct (String.eqb_spec (file_extension file_path) "xlsx") as [->|H1].
  - done.
  - rewrite decide_False by done.
    destruct (String.eqb_spec (file_extension file_path) "csv") as [->|H2].
    + done.
    + by rewrite decide_False.
Qed.

(** C9. A path whose extension is neither [xlsx] nor [csv] makes
    [import_data] raise the unsupported-format [ValueError], and only
    such a path does: no table comes back with it. With one of the two
    extensions the path goes to the matching reader instead. *)
Theorem import_data_unsupported_format (file_path : string) :
  (import_data file_path = Raise UnsupportedFormat ↔
     file_extension file_path ≠ "xlsx" ∧ file_extension file_path ≠ "csv") ∧
  (file_extension file_path = "xlsx" →
     import_data file_path = Ok (read_excel file_path)) ∧
  (file_extension file_path = "csv" →
     import_data file_path = Ok (read_csv file_path)).
Proof.
  rewrite import_data_cases. split; [split|split].
  - intros Hr. by repeat case_decide.
  - intros [H1 H2]. by rewrite !decide_False.
  - intros Hx. by rewrite decide_True.
  - intros Hc. rewrite decide_False, decide_True; [done..|].
    by rewrite Hc.
Qed.

Lemma import_data_unsupported_format_witness :
  import_data "report.pdf" = Raise UnsupportedFormat ∧
  import_data "Customer_Behavior.xlsx" = Ok (read_excel "Customer_Behavior.xlsx") ∧
  import_data "sales.csv" = Ok (read_csv "sales.csv").
Proof.
  split; [|split].
  - apply (proj1 (import_data_unsupported_format "report.pdf")). by split.
  - apply (proj1 (proj2 (import_data_unsupported_format "Customer_Behavior.xlsx"))).
    reflexivity.
  - apply (proj2 (proj2 (import_data_unsupported_format "sales.csv"))).
    reflexivity.
Defined.

(** C10 does not hold as stated: the path [csv] has no dot, its whole
    name is taken as the extension, and it is accepted. *)
Lemma no_dot_path_accepted :
  no_dot "csv" ∧ import_data "csv" = Ok (read_csv "csv").
Proof. split; reflexivity. Qed.

(** C10, amended. The extension is the text after the last dot, in
    lower case, so letter case does not matter ([.XLSX] and [.Csv] are
    accepted); a path without a dot has its whole name as extension, and
    is rejected unless that name is, in lower case, [xlsx] or [csv]. *)
Theorem import_data_extension (stem ext : string) :
  no_dot ext →
  file_extension (stem +:+ "." +:+ ext) = lower ext ∧
  file_extension ext = lower ext ∧
  import_data (stem +:+ ".XLSX") = Ok (read_excel (stem +:+ ".XLSX")) ∧
  import_data (stem +:+ ".Csv") = Ok (read_csv (stem +:+ ".Csv")) ∧
  (import_data ext = Raise UnsupportedFormat ↔
     lower ext ≠ "xlsx" ∧ lower ext ≠ "csv").
Proof.
  intros Hext. split; [by apply file_extension_last_dot|].
  split; [by apply file_extension_no_dot|].
  rewrite !import_data_cases.
  change (stem +:+ ".XLSX") with (stem +:+ "." +:+ "XLSX").
  change (stem +:+ ".Csv") with (stem +:+ "." +:+ "Csv").
  rewrite !file_extension_last_dot, (file_extension_no_dot ext) by done.
  split; [done|]. split; [done|]. split.
  - intros Hr. by repeat case_decide.
  - intros [H1 H2]. by rewrite !decide_False.
Qed.

Lemma import_data_extension_witness :
  no_dot "CSV" ∧
  file_extension "data/2011.v2.CSV" = "csv" ∧
  file_extension "CSV" = "csv" ∧
  import_data "data/2011.v2.XLSX" = Ok (read_excel "data/2011.v2.XLSX") ∧
  import_data "data/2011.v2.Csv" = Ok (read_csv "data/2011.v2.Csv") ∧
  (import_data "CSV" = Raise UnsupportedFormat ↔
     lower "CSV" ≠ "xlsx" ∧ lower "CSV" ≠ "csv").
Proof.
  split; [reflexivity|].
  apply (import_data_extension "data/2011.v2" "CSV"). reflexivity.
Defined.

End LoaderFacts.

(** ** filter_data *)

Lemma getitem_mask {A} (p : A → bool) (rows : list A) :
  pd.getitem rows (p <$> rows) = filter (λ r, p r = true) rows.
Proof.
  induction rows as [|r rows IH]; [done|].
  rewrite fmap_cons, filter_cons. cbn [pd.getitem]. rewrite IH.
  by destruct (p r).
Qed.

Lemma keeps_valid (r : Row) : keeps r ↔ valid r.
Proof.
  unfold keeps, valid.
  rewrite andb_true_iff, Z.leb_le, Qle_bool_iff. tauto.
Qed.

Lemma cleaned_data_filter (rows : list Row) :
  cleaned_data rows = filter keeps rows.
Proof.
  unfold cleaned_data, pd.dropna. cbv zeta. rewrite getitem_mask.
  by rewrite list_filter_filter.
Qed.

Lemma cleaned_data_elem (rows : list Row) (r : Row) :
  r ∈ cleaned_data rows ↔ valid r ∧ r ∈ rows.
Proof. by rewrite cleaned_data_filter, list_elem_of_filter, keeps_valid. Qed.

Lemma cleaned_data_idempotent (rows : list Row) :
  cleaned_data (cleaned_data rows) = cleaned_data rows.
Proof.
  rewrite !cleaned_data_filter, list_filter_filter.
  apply list_filter_iff. tauto.
Qed.

Lemma filter_data_run (st : Store) (dataset : loc) (rows : list Row) :
  st !! dataset = Some (Transactions rows) →
  filter_data dataset st = (st ++ [Transactions (cleaned_data rows)], Ok (length st)).
Proof.
  intros H. unfold filter_data, mbind, M_bind.
  by rewrite (get_transactions_run _ _ _ _ H).
Qed.

(** C5. [filter_data] returns a table whose rows all have a customer, a
    quantity of at least 0 and a price of at least 0; they are rows of the
    input, in the input's order and no more often than there (a
    subsequence: nothing is copied twice or made up), every such row of
    the input is kept, and an empty input gives an empty table, not an
    error. *)
Theorem filter_data_keeps_valid_rows (st : Store) (dataset : loc) (rows : list Row) :
  st !! dataset = Some (Transactions rows) →
  ∃ out,
    filter_data dataset st = (st ++ [Transactions out], Ok (length st)) ∧
    (∀ r, r ∈ out → valid r) ∧
    (∀ r, r ∈ out → r ∈ rows) ∧
    out `sublist_of` rows ∧
    (∀ r, r ∈ rows → valid r → r ∈ out) ∧
    (rows = [] → out = []).
Proof.
  intros H. exists (cleaned_data rows).
  split; [by apply filter_data_run|].
  split; [intros r; rewrite cleaned_data_elem; tauto|].
  split; [intros r; rewrite cleaned_data_elem; tauto|].
  split; [rewrite cleaned_data_filter; apply sublist_filter|].
  split; [intros r; rewrite cleaned_data_elem; tauto|].
  by intros ->.
Qed.

Lemma filter_data_keeps_valid_rows_witness :
  [Transactions ledger] !! 0%nat = Some (Transactions ledger) ∧
  ∃ out,
    filter_data 0%nat [Transactions ledger]
      = ([Transactions ledger] ++ [Transactions out], Ok 1%nat) ∧
    (∀ r, r ∈ out → valid r) ∧
    (∀ r, r ∈ out → r ∈ ledger) ∧
    out `sublist_of` ledger ∧
    (∀ r, r ∈ ledger → valid r → r ∈ out) ∧
    (ledger = [] → out = []).
Proof.
  split; [reflexivity|].
  apply (filter_data_keeps_valid_rows [Transactions ledger] 0%nat ledger).
  reflexivity.
Defined.

(** C6. Cleaning a cleaned table changes nothing: the table
    [filter_data] builds from its own result has the same rows. *)
Theorem filter_data_idempotent (st : Store) (dataset : loc) (rows : list Row) :
  st !! dataset = Some (Transactions rows) →
  ∃ st1 once st2 twice,
    filter_data dataset st = (st1, Ok once) ∧
    filter_data once st1 = (st2, Ok twice) ∧
    st1 !! once = Some (Transactions (cleaned_data rows)) ∧
    st2 !! twice = st1 !! once.
Proof.
  intros H.
  pose proof (filter_data_run st dataset rows H) as H1.
  pose proof (lookup_new_frame st (Transactions (cleaned_data rows))) as L1.
  pose proof (filter_data_run _ _ _ L1) as H2.
  eexists _, _, _, _. split; [exact H1|]. split; [exact H2|].
  split; [exact L1|].
  rewrite lookup_new_frame, cleaned_data_idempotent.
  by rewrite lookup_new_frame.
Qed.

Lemma filter_data_idempotent_witness :
  [Transactions ledger] !! 0%nat = Some (Transactions ledger) ∧
  ∃ st1 once st2 twice,
    filter_data 0%nat [Transactions ledger] = (st1, Ok once) ∧
    filter_data once st1 = (st2, Ok twice) ∧
    st1 !! once = Some (Transactions (cleaned_data ledger)) ∧
    st2 !! twice = st1 !! once.
Proof.
  split; [reflexivity|].
  apply (filter_data_idempotent [Transactions ledger] 0%nat ledger).
  reflexivity.
Defined.

(** ** Orders *)

Lemma string_compare_trans (a b c : string) :
  String.compare a b ≠ Gt → String.compare b c ≠ Gt → String.compare a c ≠ Gt.
Proof.
  revert b c. induction a as [|x a IH]; intros [|y b] [|z c]; simpl; try done.
  unfold Ascii.compare.
  destruct (N.compare_spec (N_of_ascii x) (N_of_ascii y)) as [Exy|Lxy|Gxy];
    destruct (N.compare_spec (N_of_ascii y) (N_of_ascii z)) as [Eyz|Lyz|Gyz];
    destruct (N.compare_spec (N_of_ascii x) (N_of_ascii z)) as [Exz|Lxz|Gxz];
    try done; try lia.
  apply IH.
Qed.

Global Instance string_le_trans : Transitive string_le.
Proof.
  intros a b c. unfold string_le, String.leb.
  pose proof (string_compare_trans a b c) as T.
  destruct (String.compare a b), (String.compare b c), (String.compare a c);
    naive_solver.
Qed.

Global Instance string_le_total : Total string_le.
Proof. intros a b. apply String.leb_total. Qed.

Global Instance string_le_antisym : AntiSymm (=) string_le.
Proof. intros a b. apply String.leb_antisym. Qed.

Global Instance descending_trans {A} (col : A → Z) : Transitive (descending col).
Proof. unfold descending. intros x y z. lia. Qed.

Global Instance descending_total {A} (col : A → Z) : Total (descending col).
Proof. unfold descending. intros x y. lia. Qed.



(** ** groupby *)

Section groupby_facts.
Context {K : Type} `{EqDecision K} (le : relation K) `{!RelDecision le}.
Context {A : Type} (key : A → option K).

Lemma elem_of_group_keys (rows : list A) (k : K) :
  k ∈ pd.group_keys le key rows ↔ ∃ r, r ∈ rows ∧ key r = Some k.
Proof.
  unfold pd.group_keys.
  by rewrite merge_sort_Permutation, elem_of_remove_dups, list_elem_of_omap.
Qed.

Lemma NoDup_group_keys (rows : list A) : NoDup (pd.group_keys le key rows).
Proof.
  unfold pd.group_keys. rewrite merge_sort_Permutation. apply NoDup_remove_dups.
Qed.

Lemma StronglySorted_group_keys `{!Transitive le, !Total le} (rows : list A) :
  StronglySorted le (pd.group_keys le key rows).
Proof. apply StronglySorted_merge_sort; apply _. Qed.

(** A summary with one row per group has the group keys as its first
    column. *)
Lemma groupby_keys {B} (agg : list A → B) (rows : list A) :
  ((λ g, (g.1, agg g.2)) <$> pd.groupby le key rows).*1 = pd.group_keys le key rows.
Proof.
  unfold pd.groupby. rewrite <- !list_fmap_compose.
  apply list_fmap_id.
Qed.

Lemma elem_of_groupby_summary {B} (agg : list A → B) (rows : list A) (k : K) (v : B) :
  (k, v) ∈ (λ g, (g.1, agg g.2)) <$> pd.groupby le key rows ↔
  (∃ r, r ∈ rows ∧ key r = Some k) ∧
  v = agg (filter (λ r, key r = Some k) rows).
Proof.
  unfold pd.groupby. rewrite <- list_fmap_compose, list_elem_of_fmap.
  setoid_rewrite elem_of_group_keys. simpl. split.
  - intros (k' & [= <- ->] & Hk). done.
  - intros [Hk ->]. by exists k.
Qed.

End groupby_facts.

(** ** purchase_patterns *)

Lemma qsum_inject_Z (values : list Z) :
  (pd.qsum (inject_Z <$> values) == inject_Z (total values))%Q.
Proof.
  induction values as [|v values IH]; [done|].
  rewrite fmap_cons. unfold pd.qsum, total in *. cbn [foldr].
  by rewrite IH, inject_Z_plus.
Qed.

(** [pd.mean] is the arithmetic mean: the sum over the count. *)
Lemma mean_arithmetic (values : list Q) :
  values ≠ [] →
  (pd.mean values * inject_Z (Z.of_nat (length values)) == pd.qsum values)%Q.
Proof.
  intros Hne. unfold pd.mean.
  rewrite Qmult_comm. apply Qmult_div_r.
  destruct values; [done|]. simpl length.
  intros E. unfold Qeq in E. simpl in E. lia.
Qed.

Lemma purchase_patterns_run (st : Store) (sales_data : loc) (rows : list Row) :
  st !! sales_data = Some (Transactions rows) →
  purchase_patterns sales_data st
    = (st ++ [PatternTable (product_analysis rows)], Ok (length st)).
Proof.
  intros H. unfold purchase_patterns, mbind, M_bind.
  by rewrite (get_transactions_run _ _ _ _ H).
Qed.

Lemma items_product_analysis (rows : list Row) :
  items (product_analysis rows)
  = pd.group_keys string_le (λ r, Some (Description r)) rows.
Proof.
  unfold items, product_analysis, pd.groupby. rewrite <- !list_fmap_compose.
  apply list_fmap_id.
Qed.

(** C8 does not hold as stated: the summary lists the products by name,
    not in the order in which the input first shows them. Here the input
    shows TEAPOT before BELL and the summary has BELL first. *)
Lemma purchase_patterns_not_in_input_order :
  first_appearance (Description <$> two_products) = ["TEAPOT"; "BELL"] ∧
  ∃ out,
    purchase_patterns 0%nat [Transactions two_products]
      = ([Transactions two_products; PatternTable out], Ok 1%nat) ∧
    items out = ["BELL"; "TEAPOT"].
Proof. split; [reflexivity|]. eexists. split; reflexivity. Qed.

(** C8, amended. [purchase_patterns] returns one row for each distinct
    product name of the input, with the arithmetic mean of [Quantity] and
    of [UnitPrice] over the rows of that product; the rows are in the
    ascending order of the product names. *)
Theorem purchase_patterns_by_product (st : Store) (sales_data : loc) (rows : list Row) :
  st !! sales_data = Some (Transactions rows) →
  ∃ out,
    purchase_patterns sales_data st = (st ++ [PatternTable out], Ok (length st)) ∧
    NoDup (items out) ∧
    (∀ item, item ∈ items out ↔ ∃ r, r ∈ rows ∧ Description r = item) ∧
    StronglySorted string_le (items out) ∧
    (∀ item mean_quantity mean_price,
       (item, mean_quantity, mean_price) ∈ out →
       let group := filter (λ r, Description r = item) rows in
       let count := inject_Z (Z.of_nat (length group)) in
       group ≠ [] ∧
       mean_quantity = pd.mean ((λ r, inject_Z (Quantity r)) <$> group) ∧
       mean_price = pd.mean (UnitPrice <$> group) ∧
       (mean_quantity * count == inject_Z (total (Quantity <$> group)))%Q ∧
       (mean_price * count == pd.qsum (UnitPrice <$> group))%Q).
Proof.
  intros H. exists (product_analysis rows).
  split; [by apply purchase_patterns_run|].
  rewrite items_product_analysis.
  split; [apply NoDup_group_keys|].
  split.
  { intros item. rewrite elem_of_group_keys. split.
    - intros (r & Hr & [= <-]). by exists r.
    - intros (r & Hr & <-). by exists r. }
  split; [apply StronglySorted_group_keys; apply _|].
  intros item mq mp Hin group count.
  unfold product_analysis, pd.groupby in Hin.
  rewrite <- list_fmap_compose in Hin.
  apply list_elem_of_fmap in Hin as (k & Heq & Hk). simpl in Heq.
  injection Heq as Hitem Hmq Hmp. subst k.
  apply elem_of_group_keys in Hk as (r & Hr & [= Hkey]).
  assert (filter (λ r, Some (Description r) = Some item) rows = group) as Hg.
  { subst group. apply list_filter_iff. intros x. split; [by intros [= ->]|by intros ->]. }
  assert (group ≠ []) as Hne.
  { intros E. assert (r ∈ group) as Hin; [|by rewrite E in Hin; inversion Hin].
    subst group. by apply list_elem_of_filter. }
  rewrite Hg in Hmq, Hmp. subst mq mp.
  split; [done|]. split; [done|]. split; [done|].
  subst count. split.
  - rewrite <- (length_fmap (λ r, inject_Z (Quantity r)) group).
    rewrite mean_arithmetic by (by destruct group).
    by rewrite <- qsum_inject_Z, <- list_fmap_compose.
  - rewrite <- (length_fmap UnitPrice group).
    apply mean_arithmetic. by destruct group.
Qed.

Lemma purchase_patterns_by_product_witness :
  [Transactions two_products] !! 0%nat = Some (Transactions two_products) ∧
  ∃ out,
    purchase_patterns 0%nat [Transactions two_products]
      = ([Transactions two_products] ++ [PatternTable out], Ok 1%nat) ∧
    NoDup (items out) ∧
    (∀ item, item ∈ items out ↔ ∃ r, r ∈ two_products ∧ Description r = item) ∧
    StronglySorted string_le (items out) ∧
    (∀ item mean_quantity mean_price,
       (item, mean_quantity, mean_price) ∈ out →
       let group := filter (λ r, Description r = item) two_products in
       let count := inject_Z (Z.of_nat (length group)) in
       group ≠ [] ∧
       mean_quantity = pd.mean ((λ r, inject_Z (Quantity r)) <$> group) ∧
       mean_price = pd.mean (UnitPrice <$> group) ∧
       (mean_quantity * count == inject_Z (total (Quantity <$> group)))%Q ∧
       (mean_price * count == pd.qsum (UnitPrice <$> group))%Q).
Proof.
  split; [reflexivity|].
  apply (purchase_patterns_by_product [Transactions two_products] 0%nat two_products).
  reflexivity.
Defined.

(** The example of the specification: a product with quantities 2 and 4
    at prices 10 and 20 has mean quantity 3 and mean price 15. *)
Example purchase_patterns_example :
  ∃ mean_quantity mean_price,
    purchase_patterns 0%nat [Transactions two_products]
    = ([Transactions two_products;
        PatternTable [("BELL", 24 # 1, 1 # 2); ("TEAPOT", mean_quantity, mean_price)]],
       Ok 1%nat) ∧
    (mean_quantity == 3)%Q ∧ (mean_price == 15)%Q.
Proof. eexists _, _. split; [reflexivity|]. split; reflexivity. Qed.

(** ** sort_values *)

Lemma insert_desc_Permutation {A} (col : A → Z) (x : A) (rows : list A) :
  insert_desc col x rows ≡ₚ x :: rows.
Proof.
  induction rows as [|y rows IH]; simpl; [done|].
  destruct (col x <? col y); [|done]. by rewrite IH, Permutation_swap.
Qed.

Lemma insert_desc_sorted {A} (col : A → Z) (x : A) (rows : list A) :
  StronglySorted (descending col) rows →
  StronglySorted (descending col) (insert_desc col x rows).
Proof.
  induction 1 as [|y rows Hs IH Hy]; simpl; [by repeat constructor|].
  destruct (col x <? col y) eqn:E.
  - apply Z.ltb_lt in E. constructor; [done|].
    rewrite insert_desc_Permutation. constructor; [|done].
    unfold descending. lia.
  - apply Z.ltb_ge in E. constructor; [by constructor|].
    constructor; [done|].
    eapply list.Forall_impl; [exact Hy|]. unfold descending. intros z Hz. lia.
Qed.

Lemma stable_sort_desc_sorts : sorts_descending stable_sort_desc.
Proof.
  split; intros A col rows; unfold stable_sort_desc.
  - induction rows as [|x rows IH]; simpl; [done|].
    by rewrite insert_desc_Permutation, IH.
  - induction rows as [|x rows IH]; simpl; [constructor|].
    by apply insert_desc_sorted.
Qed.



(** ** Sums of an [int64] column *)

Lemma int64_fits (z : Z) : fits_int64 z → pd.int64 z = z.
Proof.
  unfold fits_int64, pd.int64. intros Hz.
  rewrite Z.mod_small; lia.
Qed.

Lemma int64_range (z : Z) : fits_int64 (pd.int64 z).
Proof.
  unfold fits_int64, pd.int64.
  pose proof (Z.mod_pos_bound (z + 2 ^ 63) (2 ^ 64)). lia.
Qed.

Lemma int64_add_r (a b : Z) : pd.int64 (a + pd.int64 b) = pd.int64 (a + b).
Proof.
  unfold pd.int64. f_equal.
  replace (a + ((b + 2 ^ 63) mod 2 ^ 64 - 2 ^ 63) + 2 ^ 63)
    with (a + (b + 2 ^ 63) mod 2 ^ 64) by lia.
  rewrite Z.add_mod_idemp_r by lia. f_equal. lia.
Qed.

Lemma sum_total (values : list Z) : pd.sum values = pd.int64 (total values).
Proof. done. Qed.

Lemma nunique_count `{EqDecision B} (values distinct : list B) :
  NoDup distinct → (∀ v, v ∈ distinct ↔ v ∈ values) →
  pd.nunique values = Z.of_nat (length distinct).
Proof.
  intros Hnd Hel. unfold pd.nunique. f_equal.
  apply Permutation_length, NoDup_Permutation; [apply NoDup_remove_dups|done|].
  intros v. by rewrite elem_of_remove_dups, Hel.
Qed.

Lemma customer_purchases_elem (rows : list Row) (c n : Z) :
  (c, n) ∈ customer_purchases rows ↔
  (∃ r, r ∈ rows ∧ CustomerID r = Some c) ∧
  n = pd.nunique (InvoiceNo <$> filter (λ r, CustomerID r = Some c) rows).
Proof.
  apply (elem_of_groupby_summary Z.le CustomerID (λ g, pd.nunique (InvoiceNo <$> g))).
Qed.

Lemma product_sales_elem (rows : list Row) (name : string) (total : Z) :
  (name, total) ∈ product_sales rows ↔
  (∃ r, r ∈ rows ∧ Description r = name) ∧
  total = pd.sum (Quantity <$> filter (λ r, Description r = name) rows).
Proof.
  unfold product_sales.
  rewrite (elem_of_groupby_summary string_le (λ r, Some (Description r))
             (λ g, pd.sum (Quantity <$> g))).
  assert (filter (λ r, Some (Description r) = Some name) rows
          = filter (λ r, Description r = name) rows) as ->.
  { apply list_filter_iff. intros x. split; [by intros [= ->]|by intros ->]. }
  split.
  - intros [(r & Hr & [= <-]) ->]. split; [by exists r|done].
  - intros [(r & Hr & <-) ->]. split; [by exists r|done].
Qed.

Lemma customer_purchases_keys (rows : list Row) :
  (customer_purchases rows).*1 = pd.group_keys Z.le CustomerID rows.
Proof.
  apply (groupby_keys Z.le CustomerID (λ g, pd.nunique (InvoiceNo <$> g))).
Qed.


Section sorted_facts.
Variable sort_values : ∀ A : Type, (A → Z) → list A → list A.
Hypothesis sort_values_sorts : sorts_descending sort_values.

Lemma loyalty_customers_run (st : Store) (df : loc) (rows : list Row) (min_purchases : Z) :
  st !! df = Some (Transactions rows) →
  loyalty_customers sort_values df min_purchases st
    = (st ++ [LoyaltyTable (loyal_customers sort_values rows min_purchases)],
       Ok (length st)).
Proof.
  intros H. unfold loyalty_customers, mbind, M_bind.
  by rewrite (get_transactions_run _ _ _ _ H).
Qed.

Lemma high_demand_products_run (st : Store) (sales_data : loc) (rows : list Row) (limit : Z) :
  st !! sales_data = Some (Transactions rows) →
  high_demand_products sort_values sales_data limit st
    = (st ++ [ProductTable (bestsellers sort_values rows limit)], Ok (length st)).
Proof.
  intros H. unfold high_demand_products, mbind, M_bind.
  by rewrite (get_transactions_run _ _ _ _ H).
Qed.

Lemma loyal_customers_Permutation (rows : list Row) (min_purchases : Z) :
  loyal_customers sort_values rows min_purchases
  ≡ₚ filter (λ c, (min_purchases <=? c.2) = true) (customer_purchases rows).
Proof.
  unfold loyal_customers. cbv zeta.
  by rewrite (proj1 sort_values_sorts), getitem_mask.
Qed.

(** C4. [loyalty_customers] returns one row per customer of the input
    whose number of distinct invoice numbers is at least [min_purchases],
    with that number (an invoice number met twice for a customer counts
    once), the rows sorted by that number, descending; with
    [min_purchases <= 0] every customer of the input is in the result. *)
Theorem loyalty_customers_counts
    (st : Store) (df : loc) (rows : list Row) (min_purchases : Z) :
  st !! df = Some (Transactions rows) →
  ∃ out,
    loyalty_customers sort_values df min_purchases st
      = (st ++ [LoyaltyTable out], Ok (length st)) ∧
    NoDup (out.*1) ∧
    (∀ c n, (c, n) ∈ out ↔
       (∃ r, r ∈ rows ∧ CustomerID r = Some c) ∧
       (∃ invoices,
          NoDup invoices ∧
          (∀ i, i ∈ invoices ↔ ∃ r, r ∈ rows ∧ CustomerID r = Some c ∧ InvoiceNo r = i) ∧
          n = Z.of_nat (length invoices)) ∧
       min_purchases ≤ n) ∧
    StronglySorted (descending snd) out ∧
    (min_purchases ≤ 0 →
       ∀ r c, r ∈ rows → CustomerID r = Some c → c ∈ out.*1).
Proof.
  intros H. exists (loyal_customers sort_values rows min_purchases).
  split; [by apply loyalty_customers_run|].
  assert (∀ c i, i ∈ InvoiceNo <$> filter (λ r, CustomerID r = Some c) rows ↔
                 ∃ r, r ∈ rows ∧ CustomerID r = Some c ∧ InvoiceNo r = i) as Hinv.
  { intros c i. rewrite list_elem_of_fmap. setoid_rewrite list_elem_of_filter.
    split.
    - intros (r & -> & Hc & Hr). by exists r.
    - intros (r & Hr & Hc & <-). by exists r. }
  assert (∀ c n, (c, n) ∈ loyal_customers sort_values rows min_purchases ↔
                 (c, n) ∈ customer_purchases rows ∧ min_purchases ≤ n) as Hel.
  { intros c n. rewrite loyal_customers_Permutation, list_elem_of_filter.
    simpl. rewrite Z.leb_le. tauto. }
  split; [|split; [|split]].
  - rewrite loyal_customers_Permutation.
    eapply sublist_NoDup; [|apply fmap_sublist, sublist_filter].
    rewrite customer_purchases_keys. apply NoDup_group_keys.
  - intros c n. rewrite Hel, customer_purchases_elem. split.
    + intros [[Hc ->] Hmin]. split; [done|]. split; [|done].
      exists (remove_dups (InvoiceNo <$> filter (λ r, CustomerID r = Some c) rows)).
      split; [apply NoDup_remove_dups|]. split; [|done].
      intros i. by rewrite elem_of_remove_dups, Hinv.
    + intros (Hc & (invoices & Hnd & Hi & ->) & Hmin).
      split; [|done]. split; [done|]. symmetry.
      apply nunique_count; [done|]. intros i. by rewrite Hi, Hinv.
  - apply (proj2 sort_values_sorts).
  - intros Hmin r c Hr Hc. apply list_elem_of_fmap.
    exists (c, pd.nunique (InvoiceNo <$> filter (λ r, CustomerID r = Some c) rows)).
    split; [done|]. apply Hel. split.
    + apply customer_purchases_elem. split; [by exists r|done].
    + unfold pd.nunique. lia.
Qed.


End sorted_facts.

Lemma loyalty_customers_counts_witness :
  sorts_descending stable_sort_desc ∧
  [Transactions two_customers] !! 0%nat = Some (Transactions two_customers) ∧
  ∃ out,
    loyalty_customers stable_sort_desc 0%nat 2 [Transactions two_customers]
      = ([Transactions two_customers] ++ [LoyaltyTable out], Ok 1%nat) ∧
    NoDup (out.*1) ∧
    (∀ c n, (c, n) ∈ out ↔
       (∃ r, r ∈ two_customers ∧ CustomerID r = Some c) ∧
       (∃ invoices,
          NoDup invoices ∧
          (∀ i, i ∈ invoices ↔
             ∃ r, r ∈ two_customers ∧ CustomerID r = Some c ∧ InvoiceNo r = i) ∧
          n = Z.of_nat (length invoices)) ∧
       2 ≤ n) ∧
    StronglySorted (descending snd) out ∧
    (2 ≤ 0 → ∀ r c, r ∈ two_customers → CustomerID r = Some c → c ∈ out.*1).
Proof.
  split; [apply stable_sort_desc_sorts|]. split; [reflexivity|].
  apply (loyalty_customers_counts stable_sort_desc stable_sort_desc_sorts
           [Transactions two_customers] 0%nat two_customers 2).
  reflexivity.
Defined.

(** The example of the specification: customer 1 has invoices I1, I1, I2
    and customer 2 has I3; with [min_purchases = 2] only customer 1 is
    left, with count 2. *)
Example loyalty_customers_example :
  loyalty_customers stable_sort_desc 0%nat 2 [Transactions two_customers]
  = ([Transactions two_customers; LoyaltyTable [(1, 2)]], Ok 1%nat).
Proof. reflexivity. Qed.

(** The example of the specification: totals A 5, B 9, C 9 and
    [limit = 2] leave the two products that sold 9. *)
Example high_demand_products_example :
  high_demand_products stable_sort_desc 0%nat 2 [Transactions three_products]
  = ([Transactions three_products; ProductTable [("B", 9); ("C", 9)]], Ok 1%nat) ∧
  high_demand_products stable_sort_desc 0%nat 0 [Transactions three_products]
  = ([Transactions three_products; ProductTable []], Ok 1%nat) ∧
  high_demand_products stable_sort_desc 0%nat 7 [Transactions three_products]
  = ([Transactions three_products; ProductTable [("B", 9); ("C", 9); ("A", 5)]],
     Ok 1%nat).
Proof. split; [|split]; reflexivity. Qed.



(** Two products that both sold 5: with a sort that keeps ties they come
    out as the grouped table has them, BELL before TEAPOT. *)
Example high_demand_products_tie :
  product_sales tied = [("BELL", 5); ("TEAPOT", 5)] ∧
  high_demand_products stable_sort_desc 0%nat 2 [Transactions tied]
  = ([Transactions tied; ProductTable [("BELL", 5); ("TEAPOT", 5)]], Ok 1%nat).
Proof. split; reflexivity. Qed.

(** ** quarterly_revenue *)

Lemma to_datetime_Ok (rows : list Row) :
  dates_parse rows → pd.to_datetime (InvoiceDate <$> rows) = Ok (InvoiceDate <$> rows).
Proof.
  induction rows as [|r rows IH]; intros Hp; [done|].
  rewrite fmap_cons. cbn [pd.to_datetime]. rewrite IH.
  - destruct (InvoiceDate r) eqn:E; [done..|].
    by destruct (Hp r raw); [left|].
  - intros r' raw Hr'. apply Hp. by right.
Qed.

Lemma to_datetime_Raise (rows : list Row) :
  (∃ r raw, r ∈ rows ∧ InvoiceDate r = BadDate raw) →
  ∃ raw, pd.to_datetime (InvoiceDate <$> rows) = Raise (ValueError raw).
Proof.
  intros (r & raw & Hr & Hbad).
  induction rows as [|r' rows IH]; [by inversion Hr|].
  rewrite fmap_cons. cbn [pd.to_datetime].
  destruct (InvoiceDate r') eqn:E.
  - inversion Hr; subst; [congruence|]. destruct IH as [raw' ->]; [done|]. by exists raw'.
  - inversion Hr; subst; [congruence|]. destruct IH as [raw' ->]; [done|]. by exists raw'.
  - by eexists.
Qed.

Lemma set_InvoiceDate_same (rows : list Row) :
  zip_with set_InvoiceDate rows (InvoiceDate <$> rows) = rows.
Proof.
  induction rows as [|r rows IH]; [done|].
  rewrite fmap_cons. cbn [zip_with]. rewrite IH. by destruct r.
Qed.



Lemma omap_row_quarter_with_revenue (rows : list Row) :
  omap pd.row_quarter (with_revenue <$> rows) = omap pd.row_quarter rows.
Proof. induction rows as [|r rows IH]; [done|]. csimpl. by rewrite IH. Qed.

Lemma quarter_revenue_with_revenue (q : Z) (rows : list Row) :
  pd.qsum (omap TransactionRevenue
             (filter (λ r, pd.row_quarter r = Some q) (with_revenue <$> rows)))
  = quarter_revenue q rows.
Proof.
  unfold quarter_revenue. f_equal.
  induction rows as [|r rows IH]; [done|].
  rewrite fmap_cons, !filter_cons.
  change (pd.row_quarter (with_revenue r)) with (pd.row_quarter r).
  case_decide; [|done]. csimpl. by rewrite IH.
Qed.

(** The table of the quarters [first] to [last] for [rows]. *)
Lemma quarterly_summary_with_revenue (rows : list Row) (q : Z) (qs : list Z) :
  omap pd.row_quarter rows = q :: qs →
  pd.groupby_quarter_sum (with_revenue <$> rows)
  = Ok ((λ b, (pd.quarter_end b, quarter_revenue b rows))
          <$> seqZ (foldr Z.min q qs) (foldr Z.max q qs - foldr Z.min q qs + 1)).
Proof.
  intros Hq. unfold pd.groupby_quarter_sum.
  rewrite omap_row_quarter_with_revenue, Hq.
  destruct rows as [|r rows]; [done|]. rewrite fmap_cons. cbv zeta. f_equal.
  apply list_fmap_ext. intros i b Hb. f_equal.
  apply (quarter_revenue_with_revenue b (r :: rows)).
Qed.

Lemma foldr_min_le (q : Z) (qs : list Z) (x : Z) :
  x ∈ q :: qs → foldr Z.min q qs ≤ x.
Proof.
  induction qs as [|y qs IH]; simpl; rewrite !elem_of_cons.
  - intros [->|Hx]; [lia|by apply elem_of_nil in Hx].
  - rewrite elem_of_cons in IH. intros [->|[->|Hx]]; [|lia|].
    + assert (foldr Z.min q qs ≤ q) by (apply IH; by left). lia.
    + assert (foldr Z.min q qs ≤ x) by (apply IH; by right). lia.
Qed.

Lemma foldr_max_ge (q : Z) (qs : list Z) (x : Z) :
  x ∈ q :: qs → x ≤ foldr Z.max q qs.
Proof.
  induction qs as [|y qs IH]; simpl; rewrite !elem_of_cons.
  - intros [->|Hx]; [lia|by apply elem_of_nil in Hx].
  - rewrite elem_of_cons in IH. intros [->|[->|Hx]]; [|lia|].
    + assert (q ≤ foldr Z.max q qs) by (apply IH; by left). lia.
    + assert (x ≤ foldr Z.max q qs) by (apply IH; by right). lia.
Qed.

Lemma foldr_min_elem (q : Z) (qs : list Z) : foldr Z.min q qs ∈ q :: qs.
Proof.
  induction qs as [|y qs IH]; simpl; [left|].
  rewrite !elem_of_cons. rewrite elem_of_cons in IH.
  destruct (Z.min_spec y (foldr Z.min q qs)) as [[_ ->]|[_ ->]]; tauto.
Qed.

Lemma foldr_max_elem (q : Z) (qs : list Z) : foldr Z.max q qs ∈ q :: qs.
Proof.
  induction qs as [|y qs IH]; simpl; [left|].
  rewrite !elem_of_cons. rewrite elem_of_cons in IH.
  destruct (Z.max_spec y (foldr Z.max q qs)) as [[_ ->]|[_ ->]]; tauto.
Qed.

Lemma quarterly_revenue_run (st : Store) (transactions : loc) (rows : list Row) :
  st !! transactions = Some (Transactions rows) →
  dates_parse rows →
  quarterly_revenue transactions st =
    match pd.groupby_quarter_sum (with_revenue <$> rows) with
    | Ok summary =>
        (<[transactions := Transactions (with_revenue <$> rows)]> st
           ++ [RevenueTable summary], Ok (length st))
    | Raise e =>
        (<[transactions := Transactions (with_revenue <$> rows)]> st, Raise e)
    end.
Proof.
  intros H Hp. pose proof (lookup_lt_Some _ _ _ H) as Hlt.
  unfold quarterly_revenue, mbind, M_bind, lift, set_frame.
  rewrite (get_transactions_run _ _ _ _ H), (to_datetime_Ok _ Hp).
  rewrite set_InvoiceDate_same, (list_insert_id _ _ _ H).
  rewrite (get_transactions_run _ _ _ _ H).
  assert (<[transactions := Transactions (with_revenue <$> rows)]> st !! transactions
          = Some (Transactions (with_revenue <$> rows))) as H'.
  { by apply list_lookup_insert_eq. }
  change (λ r, set_TransactionRevenue r (UnitPrice r * inject_Z (Quantity r))%Q)
    with with_revenue.
  rewrite (get_transactions_run _ _ _ _ H').
  destruct (pd.groupby_quarter_sum (with_revenue <$> rows)); [|done].
  unfold new_frame. by rewrite length_insert.
Qed.

Lemma quarterly_revenue_raises (st : Store) (transactions : loc) (rows : list Row) :
  st !! transactions = Some (Transactions rows) →
  (∃ r raw, r ∈ rows ∧ InvoiceDate r = BadDate raw) →
  ∃ raw, quarterly_revenue transactions st = (st, Raise (ValueError raw)).
Proof.
  intros H Hbad. destruct (to_datetime_Raise rows Hbad) as [raw Hraw].
  exists raw. unfold quarterly_revenue, mbind, M_bind, lift.
  by rewrite (get_transactions_run _ _ _ _ H), Hraw.
Qed.

Lemma some_dated_quarters (rows : list Row) :
  some_dated rows → ∃ q qs, omap pd.row_quarter rows = q :: qs.
Proof.
  intros (r & t & Hr & Ht).
  destruct (omap pd.row_quarter rows) as [|q qs] eqn:E; [|by eauto].
  assert (pd.quarter_index t ∈ omap pd.row_quarter rows) as Hin.
  { apply list_elem_of_omap. exists r. split; [done|].
    unfold pd.row_quarter. by rewrite Ht. }
  rewrite E in Hin. by apply elem_of_nil in Hin.
Qed.

Lemma quarter_end_chronological (q1 q2 : Z) :
  q1 < q2 → chronological (pd.quarter_end q1) (pd.quarter_end q2).
Proof.
  intros Hlt. unfold chronological, pd.quarter_end. cbn [year month day].
  pose proof (Z.div_mod q1 4). pose proof (Z.div_mod q2 4).
  pose proof (Z.mod_pos_bound q1 4). pose proof (Z.mod_pos_bound q2 4).
  lia.
Qed.

(** For a timestamp of the calendar, the label of its quarter is the
    last day of the three months that hold its month. *)
Lemma quarter_end_of_timestamp (t : Timestamp) :
  1 ≤ month t ≤ 12 →
  year (pd.quarter_end (pd.quarter_index t)) = year t ∧
  month (pd.quarter_end (pd.quarter_index t)) ∈ [3; 6; 9; 12] ∧
  month t ≤ month (pd.quarter_end (pd.quarter_index t)) < month t + 3.
Proof.
  intros Hm. unfold pd.quarter_end, pd.quarter_index. cbn [year month day].
  assert ((4 * year t + (month t - 1) / 3) / 4 = year t) as ->.
  { symmetry. apply (Z.div_unique _ 4 _ ((month t - 1) / 3)); [|lia].
    left. split; [apply Z.div_pos; lia|apply Z.div_lt_upper_bound; lia]. }
  assert ((4 * year t + (month t - 1) / 3) mod 4 = (month t - 1) / 3) as ->.
  { symmetry. apply (Z.mod_unique _ 4 (year t)); [|lia].
    left. split; [apply Z.div_pos; lia|apply Z.div_lt_upper_bound; lia]. }
  split; [done|].
  pose proof (Z.div_mod (month t - 1) 3). pose proof (Z.mod_pos_bound (month t - 1) 3).
  assert ((month t - 1) / 3 ∈ [0; 1; 2; 3]) as Hq.
  { assert (0 ≤ (month t - 1) / 3 ≤ 3) as Hb by lia.
    rewrite !elem_of_cons. lia. }
  rewrite !elem_of_cons in Hq. rewrite !elem_of_cons.
  destruct Hq as [Hq|[Hq|[Hq|[Hq|Hq]]]]; [..|by apply elem_of_nil in Hq];
    rewrite Hq in *; lia.
Qed.

Lemma StronglySorted_seq (a n : nat) : StronglySorted lt (seq a n).
Proof.
  revert a. induction n as [|n IH]; intros a; simpl; constructor; [done|].
  apply list.Forall_forall. intros x Hx. apply elem_of_seq in Hx. lia.
Qed.

Lemma StronglySorted_seqZ (m n : Z) : StronglySorted Z.lt (seqZ m n).
Proof.
  unfold seqZ. apply (StronglySorted_fmap _ lt); [lia|]. apply StronglySorted_seq.
Qed.

(** What [quarterly_revenue] returns on a table whose dates parse and
    which has a dated row. *)
Lemma quarterly_revenue_bins (st : Store) (transactions : loc) (rows : list Row) :
  st !! transactions = Some (Transactions rows) →
  dates_parse rows →
  some_dated rows →
  ∃ first last,
    quarterly_revenue transactions st
      = (<[transactions := Transactions (with_revenue <$> rows)]> st
           ++ [RevenueTable ((λ q, (pd.quarter_end q, quarter_revenue q rows))
                               <$> seqZ first (last - first + 1))],
         Ok (length st)) ∧
    first ≤ last ∧
    (∃ r, r ∈ rows ∧ pd.row_quarter r = Some first) ∧
    (∃ r, r ∈ rows ∧ pd.row_quarter r = Some last) ∧
    (∀ r q, r ∈ rows → pd.row_quarter r = Some q → first ≤ q ≤ last).
Proof.
  intros H Hp Hd. destruct (some_dated_quarters rows Hd) as (q & qs & Hq).
  exists (foldr Z.min q qs), (foldr Z.max q qs).
  split; [|split; [|split; [|split]]].
  - rewrite (quarterly_revenue_run _ _ _ H Hp).
    by rewrite (quarterly_summary_with_revenue _ _ _ Hq).
  - assert (q ∈ q :: qs) as Hq0 by left.
    pose proof (foldr_min_le q qs q Hq0). pose proof (foldr_max_ge q qs q Hq0).
    lia.
  - pose proof (foldr_min_elem q qs) as Hin. rewrite <- Hq in Hin.
    by apply list_elem_of_omap in Hin.
  - pose proof (foldr_max_elem q qs) as Hin. rewrite <- Hq in Hin.
    by apply list_elem_of_omap in Hin.
  - intros r b Hr Hb.
    assert (b ∈ q :: qs) as Hin.
    { rewrite <- Hq. apply list_elem_of_omap. by exists r. }
    split; [by apply foldr_min_le|by apply foldr_max_ge].
Qed.

(** C2 does not hold as stated: a quarter between the first and the last
    one comes out with revenue 0 although no row is dated in it. The rows
    of [gap] lie in the first and the third quarter of 2011; the result
    has a row for the second. *)
Lemma quarterly_revenue_empty_quarter :
  quarterly_revenue 0%nat [Transactions gap]
  = ([Transactions (with_revenue <$> gap);
      RevenueTable [ (mkTimestamp 2011 3 31, 30%Q);
                     (mkTimestamp 2011 6 30, 0%Q);
                     (mkTimestamp 2011 9 30, 5%Q) ]], Ok 1%nat) ∧
  pd.quarter_end 8045 = mkTimestamp 2011 6 30 ∧
  omap pd.row_quarter gap = [8044; 8044; 8046].
Proof. split; [|split]; reflexivity. Qed.

(** C2, amended. On a table whose dates parse and which has a dated row,
    [quarterly_revenue] returns one row for every calendar quarter from
    the quarter of the earliest date to the quarter of the latest, in
    chronological order, each with the summed revenue of the rows dated
    in it; a quarter of that range without rows is there with revenue 0.
    An empty table gives an empty result. *)
Theorem quarterly_revenue_every_quarter
    (st : Store) (transactions : loc) (rows : list Row) :
  st !! transactions = Some (Transactions rows) →
  dates_parse rows →
  (some_dated rows →
   ∃ first last out,
     quarterly_revenue transactions st
       = (<[transactions := Transactions (with_revenue <$> rows)]> st
            ++ [RevenueTable out], Ok (length st)) ∧
     out = (λ q, (pd.quarter_end q, quarter_revenue q rows))
             <$> seqZ first (last - first + 1) ∧
     first ≤ last ∧
     (∃ r, r ∈ rows ∧ pd.row_quarter r = Some first) ∧
     (∃ r, r ∈ rows ∧ pd.row_quarter r = Some last) ∧
     (∀ r q, r ∈ rows → pd.row_quarter r = Some q → first ≤ q ≤ last) ∧
     StronglySorted chronological (out.*1) ∧
     (∀ q, first ≤ q ≤ last →
        (∀ r, r ∈ rows → pd.row_quarter r ≠ Some q) →
        (pd.quarter_end q, 0%Q) ∈ out)) ∧
  (rows = [] →
   quarterly_revenue transactions st
     = (<[transactions := Transactions []]> st ++ [RevenueTable []], Ok (length st))).
Proof.
  intros H Hp. split.
  - intros Hd.
    destruct (quarterly_revenue_bins st transactions rows H Hp Hd)
      as (first & last & Hrun & Hle & Hfirst & Hlast & Hrange).
    exists first, last. eexists. split; [exact Hrun|].
    split; [done|]. split; [done|]. split; [done|]. split; [done|].
    split; [done|]. split.
    + rewrite <- list_fmap_compose.
      apply (StronglySorted_fmap _ Z.lt); [|apply StronglySorted_seqZ].
      intros x y. apply quarter_end_chronological.
    + intros q Hq Hnone. apply list_elem_of_fmap. exists q. split.
      * unfold quarter_revenue.
        assert (filter (λ r, pd.row_quarter r = Some q) rows = []) as ->; [|done].
        apply elem_of_nil_inv. intros r Hr.
        apply list_elem_of_filter in Hr as [Hr1 Hr2]. by apply (Hnone r).
      * apply elem_of_seqZ. lia.
  - intros ->. by rewrite (quarterly_revenue_run _ _ _ H Hp).
Qed.

Lemma quarterly_revenue_every_quarter_witness :
  [Transactions gap] !! 0%nat = Some (Transactions gap) ∧
  dates_parse gap ∧
  some_dated gap ∧
  ∃ first last out,
    quarterly_revenue 0%nat [Transactions gap]
      = (<[0%nat := Transactions (with_revenue <$> gap)]> [Transactions gap]
           ++ [RevenueTable out], Ok 1%nat) ∧
    out = (λ q, (pd.quarter_end q, quarter_revenue q gap))
            <$> seqZ first (last - first + 1) ∧
    first ≤ last ∧
    (∃ r, r ∈ gap ∧ pd.row_quarter r = Some first) ∧
    (∃ r, r ∈ gap ∧ pd.row_quarter r = Some last) ∧
    (∀ r q, r ∈ gap → pd.row_quarter r = Some q → first ≤ q ≤ last) ∧
    StronglySorted chronological (out.*1) ∧
    (∀ q, first ≤ q ≤ last →
       (∀ r, r ∈ gap → pd.row_quarter r ≠ Some q) →
       (pd.quarter_end q, 0%Q) ∈ out).
Proof.
  assert (dates_parse gap) as Hp.
  { intros r raw Hr. apply list_elem_of_In in Hr. simpl in Hr.
    intuition (subst; discriminate). }
  assert (some_dated gap) as Hd.
  { eexists _, _. split; [left|reflexivity]. }
  split; [reflexivity|]. split; [exact Hp|]. split; [exact Hd|].
  exact (proj1 (quarterly_revenue_every_quarter [Transactions gap] 0%nat gap
                  eq_refl Hp) Hd).
Defined.

Lemma omap_row_quarter_dated (rows : list Row) :
  omap pd.row_quarter (dated rows) = omap pd.row_quarter rows.
Proof.
  unfold dated. induction rows as [|r rows IH]; [done|].
  rewrite filter_cons. case_decide as Hr; csimpl; rewrite IH; [done|].
  unfold pd.row_quarter at 2. by rewrite Hr.
Qed.

Lemma quarter_revenue_dated (q : Z) (rows : list Row) :
  quarter_revenue q (dated rows) = quarter_revenue q rows.
Proof.
  unfold quarter_revenue, dated. do 2 f_equal.
  rewrite list_filter_filter. apply list_filter_iff. intros r. split; [tauto|].
  intros Hq. split; [done|]. unfold pd.row_quarter in Hq.
  by destruct (InvoiceDate r).
Qed.

Lemma dates_parse_dated (rows : list Row) : dates_parse rows → dates_parse (dated rows).
Proof.
  intros Hp r raw Hr. apply list_elem_of_filter in Hr as [_ Hr]. by apply Hp.
Qed.

(** C3 does not hold as stated: one date that cannot be parsed makes the
    whole call raise, and no table comes back; the row is not set
    aside. *)
Lemma quarterly_revenue_unparseable_date :
  quarterly_revenue 0%nat [Transactions misdated]
  = ([Transactions misdated], Raise (ValueError "unknown")).
Proof. reflexivity. Qed.

(** C3, amended. A row with a null date is in no quarter's sum and does
    not make the call fail: on a table whose dates parse and which has a
    dated row, the result is the one for the table without its null-dated
    rows. A date that cannot be parsed makes [quarterly_revenue] raise a
    [ValueError] before anything is written or summed. *)
Theorem quarterly_revenue_dates
    (st : Store) (transactions : loc) (rows : list Row) :
  st !! transactions = Some (Transactions rows) →
  ((∃ r raw, r ∈ rows ∧ InvoiceDate r = BadDate raw) →
   ∃ raw, quarterly_revenue transactions st = (st, Raise (ValueError raw))) ∧
  (dates_parse rows → some_dated rows →
   ∃ out,
     quarterly_revenue transactions st
       = (<[transactions := Transactions (with_revenue <$> rows)]> st
            ++ [RevenueTable out], Ok (length st)) ∧
     (∀ period total, (period, total) ∈ out →
        ∃ q, period = pd.quarter_end q ∧ total = quarter_revenue q rows) ∧
     (∀ (st0 : Store) (df0 : loc),
        st0 !! df0 = Some (Transactions (dated rows)) →
        quarterly_revenue df0 st0
          = (<[df0 := Transactions (with_revenue <$> dated rows)]> st0
               ++ [RevenueTable out], Ok (length st0)))).
Proof.
  intros H. split; [by apply quarterly_revenue_raises|].
  intros Hp Hd. destruct (some_dated_quarters rows Hd) as (q & qs & Hq).
  eexists. split; [|split].
  - rewrite (quarterly_revenue_run _ _ _ H Hp).
    by rewrite (quarterly_summary_with_revenue _ _ _ Hq).
  - intros t v Hin. apply list_elem_of_fmap in Hin as (b & [= -> ->] & _).
    by exists b.
  - intros st0 df0 H0.
    rewrite (quarterly_revenue_run _ _ _ H0 (dates_parse_dated _ Hp)).
    rewrite (quarterly_summary_with_revenue _ q qs)
      by (by rewrite omap_row_quarter_dated).
    do 4 f_equal. apply list_fmap_ext. intros i b _.
    by rewrite quarter_revenue_dated.
Qed.

Lemma quarterly_revenue_dates_witness :
  [Transactions undated] !! 0%nat = Some (Transactions undated) ∧
  dates_parse undated ∧
  some_dated undated ∧
  ∃ out,
    quarterly_revenue 0%nat [Transactions undated]
      = (<[0%nat := Transactions (with_revenue <$> undated)]> [Transactions undated]
           ++ [RevenueTable out], Ok 1%nat) ∧
    (∀ period total, (period, total) ∈ out →
       ∃ q, period = pd.quarter_end q ∧ total = quarter_revenue q undated) ∧
    (∀ (st0 : Store) (df0 : loc),
       st0 !! df0 = Some (Transactions (dated undated)) →
       quarterly_revenue df0 st0
         = (<[df0 := Transactions (with_revenue <$> dated undated)]> st0
              ++ [RevenueTable out], Ok (length st0))).
Proof.
  assert (dates_parse undated) as Hp.
  { intros r raw Hr. apply list_elem_of_In in Hr. simpl in Hr.
    intuition (subst; discriminate). }
  assert (some_dated undated) as Hd.
  { eexists _, _. split; [left|reflexivity]. }
  split; [reflexivity|]. split; [exact Hp|]. split; [exact Hd|].
  exact (proj2 (quarterly_revenue_dates [Transactions undated] 0%nat undated
                  eq_refl) Hp Hd).
Defined.

(** ** Which calls write to their input *)






(** * More of the module *)

(** ** import_data: which paths are accepted *)

Section LoaderMore.
Import Loader.

Lemma lower_char_dot (c : ascii) :
  Ascii.eqb (lower_char c) "." = Ascii.eqb c ".".
Proof. by destruct c as [[] [] [] [] [] [] [] []]. Qed.

Lemma lower_char_idempotent (c : ascii) : lower_char (lower_char c) = lower_char c.
Proof. by destruct c as [[] [] [] [] [] [] [] []]. Qed.

Lemma lower_idempotent (s : string) : lower (lower s) = lower s.
Proof.
  induction s as [|c s IH]; [done|]. simpl. by rewrite lower_char_idempotent, IH.
Qed.

Lemma split_lower (s : string) : split "." (lower s) = lower <$> split "." s.
Proof.
  induction s as [|c s IH]; [done|]. simpl.
  rewrite lower_char_dot, IH. destruct (Ascii.eqb c "."); [done|].
  pose proof (split_nonempty "." s) as Hne. by destruct (split "." s).
Qed.

Lemma last_lower (pieces : list string) :
  List.last (lower <$> pieces) EmptyString = lower (List.last pieces EmptyString).
Proof.
  induction pieces as [|x pieces IH]; [done|].
  destruct pieces as [|y pieces]; [done|]. exact IH.
Qed.

Lemma file_extension_lower (file_path : string) :
  file_extension (lower file_path) = file_extension file_path.
Proof.
  unfold file_extension. by rewrite split_lower, last_lower, lower_idempotent.
Qed.

(** Every path is a name without a dot, or a stem, a dot and such a
    name. *)
Lemma path_parts (file_path : string) :
  ∃ ext, no_dot ext ∧
         (file_path = ext ∨ ∃ stem, file_path = stem +:+ "." +:+ ext).
Proof.
  induction file_path as [|c rest (ext & Hext & IH)]; [by exists EmptyString; split; [|left]|].
  destruct (Ascii.eqb_spec c ".") as [->|Hc].
  - exists ext. split; [done|]. right. destruct IH as [->|[stem ->]].
    + by exists EmptyString.
    + by exists (String "." stem).
  - destruct IH as [->|[stem ->]].
    + exists (String c ext). split; [|by left].
      unfold no_dot in *. simpl. rewrite Hext.
      by destruct (Ascii.eqb_spec c ".").
    + exists ext. split; [done|]. right. by exists (String c stem).
Qed.

Lemma file_extension_parts (file_path ext : string) :
  no_dot ext →
  (file_path = ext ∨ ∃ stem, file_path = stem +:+ "." +:+ ext) →
  file_extension file_path = lower ext.
Proof.
  intros Hext [->|[stem ->]].
  - by apply file_extension_no_dot.
  - by apply file_extension_last_dot.
Qed.

(** X1. For paths of ASCII characters the reader depends on the path only
    up to letter case: two such paths that are equal once lower-cased have
    the same extension and are both read as a workbook, both read as
    delimited text, or both rejected. (Beyond ASCII [str.lower] is not
    character by character, and equal lower-cased paths can have
    different extensions.) *)
Theorem import_data_ignores_case (p q : string) :
  ascii_text p →
  ascii_text q →
  lower p = lower q →
  file_extension p = file_extension q ∧
  (import_data p = Ok (read_excel p) ↔ import_data q = Ok (read_excel q)) ∧
  (import_data p = Ok (read_csv p) ↔ import_data q = Ok (read_csv q)) ∧
  (import_data p = Raise UnsupportedFormat ↔ import_data q = Raise UnsupportedFormat).
Proof.
  intros _ _ Hpq.
  assert (file_extension p = file_extension q) as Hext.
  { by rewrite <- (file_extension_lower p), <- (file_extension_lower q), Hpq. }
  split; [done|]. rewrite !import_data_cases, Hext.
  repeat case_decide; repeat split; intros; congruence.
Qed.

Lemma import_data_ignores_case_witness :
  ascii_text "Sales.Q1.CSV" ∧
  ascii_text "sales.q1.csv" ∧
  lower "Sales.Q1.CSV" = lower "sales.q1.csv" ∧
  file_extension "Sales.Q1.CSV" = file_extension "sales.q1.csv" ∧
  (import_data "Sales.Q1.CSV" = Ok (read_excel "Sales.Q1.CSV") ↔
   import_data "sales.q1.csv" = Ok (read_excel "sales.q1.csv")) ∧
  (import_data "Sales.Q1.CSV" = Ok (read_csv "Sales.Q1.CSV") ↔
   import_data "sales.q1.csv" = Ok (read_csv "sales.q1.csv")) ∧
  (import_data "Sales.Q1.CSV" = Raise UnsupportedFormat ↔
   import_data "sales.q1.csv" = Raise UnsupportedFormat).
Proof.
  split; [reflexivity|]. split; [reflexivity|]. split; [reflexivity|].
  apply (import_data_ignores_case "Sales.Q1.CSV" "sales.q1.csv"); reflexivity.
Defined.

(** X2. The paths [import_data] reads as delimited text are exactly the
    names that are [csv] in some letter case and the paths that end in a
    dot and such a name; likewise [xlsx] for workbooks; every other path
    is rejected with the unsupported-format error. The reader gets the
    path as it was given. *)
Theorem import_data_accepts (file_path : string) :
  let ends_in word :=
    ∃ ext, no_dot ext ∧ lower ext = word ∧
           (file_path = ext ∨ ∃ stem, file_path = stem +:+ "." +:+ ext) in
  (import_data file_path = Ok (read_excel file_path) ↔ ends_in "xlsx") ∧
  (import_data file_path = Ok (read_csv file_path) ↔ ends_in "csv") ∧
  (import_data file_path = Raise UnsupportedFormat ↔
     ¬ ends_in "xlsx" ∧ ¬ ends_in "csv") ∧
  (∀ t, import_data file_path = Ok t →
        t = read_excel file_path ∨ t = read_csv file_path).
Proof.
  intros ends_in.
  assert (∀ word, ends_in word ↔ file_extension file_path = word) as Hends.
  { intros word. split.
    - intros (ext & Hext & <- & Hparts). by apply file_extension_parts.
    - intros <-. destruct (path_parts file_path) as (ext & Hext & Hparts).
      exists ext. split; [done|]. split; [|done].
      symmetry. by apply file_extension_parts. }
  rewrite !Hends, import_data_cases.
  repeat case_decide; repeat split; intros; simplify_eq;
    try congruence; try tauto; eauto.
Qed.

End LoaderMore.

(** ** filter_data: more *)

Lemma filter_all `{∀ x : A, Decision (P x)} (l : list A) :
  filter P l = l ↔ ∀ x, x ∈ l → P x.
Proof.
  induction l as [|x l IH].
  - split; [|done]. intros _ x Hx. by apply elem_of_nil in Hx.
  - rewrite filter_cons. case_decide as Hx.
    + split.
      * intros [= Hl] y Hy. apply elem_of_cons in Hy as [->|Hy]; [done|].
        by apply IH.
      * intros Hall. f_equal. apply IH. intros y Hy. apply Hall. by right.
    + split.
      * intros Hl. pose proof (length_filter P l) as Hlen.
        rewrite Hl in Hlen. simpl in Hlen. lia.
      * intros Hall. destruct Hx. apply Hall. by left.
Qed.

Lemma cleaned_data_app (a b : list Row) :
  cleaned_data (a ++ b) = cleaned_data a ++ cleaned_data b.
Proof. rewrite !cleaned_data_filter. apply filter_app. Qed.

(** X3. Cleaning can be done in pieces: the rows [filter_data] keeps of a
    table that is one table followed by another are the rows it keeps of
    the first followed by the rows it keeps of the second. *)
Theorem filter_data_in_pieces
    (st sta stb : Store) (d da db : loc) (a b : list Row) :
  st !! d = Some (Transactions (a ++ b)) →
  sta !! da = Some (Transactions a) →
  stb !! db = Some (Transactions b) →
  ∃ outa outb,
    filter_data da sta = (sta ++ [Transactions outa], Ok (length sta)) ∧
    filter_data db stb = (stb ++ [Transactions outb], Ok (length stb)) ∧
    filter_data d st = (st ++ [Transactions (outa ++ outb)], Ok (length st)).
Proof.
  intros H Ha Hb. exists (cleaned_data a), (cleaned_data b).
  rewrite <- cleaned_data_app. by rewrite !(filter_data_run _ _ _) by done.
Qed.

Lemma filter_data_in_pieces_witness :
  let st := [Transactions (ledger ++ two_products); Transactions ledger;
             Transactions two_products] in
  st !! 0%nat = Some (Transactions (ledger ++ two_products)) ∧
  st !! 1%nat = Some (Transactions ledger) ∧
  st !! 2%nat = Some (Transactions two_products) ∧
  ∃ outa outb,
    filter_data 1%nat st = (st ++ [Transactions outa], Ok (length st)) ∧
    filter_data 2%nat st = (st ++ [Transactions outb], Ok (length st)) ∧
    filter_data 0%nat st = (st ++ [Transactions (outa ++ outb)], Ok (length st)).
Proof.
  intros st. split; [reflexivity|]. split; [reflexivity|]. split; [reflexivity|].
  apply (filter_data_in_pieces st st st 0%nat 1%nat 2%nat ledger two_products);
    reflexivity.
Defined.

(** X4. [filter_data] drops a row or it drops none: the table it returns
    has the rows of the input exactly when every row of the input has a
    customer, a quantity of at least 0 and a price of at least 0, and
    otherwise it is shorter than the input. *)
Theorem filter_data_clean_table (st : Store) (dataset : loc) (rows : list Row) :
  st !! dataset = Some (Transactions rows) →
  ∃ out,
    filter_data dataset st = (st ++ [Transactions out], Ok (length st)) ∧
    (out = rows ↔ ∀ r, r ∈ rows → valid r) ∧
    (out ≠ rows → (length out < length rows)%nat).
Proof.
  intros H. exists (cleaned_data rows).
  split; [by apply filter_data_run|].
  rewrite cleaned_data_filter. split.
  - rewrite filter_all. by setoid_rewrite keeps_valid.
  - intros Hne.
    destruct (decide (length (filter keeps rows) = length rows)) as [Heq|Hlt].
    + destruct Hne. apply filter_all. intros r Hr.
      destruct (decide (keeps r)) as [|Hr']; [done|].
      pose proof (length_filter_lt keeps rows r Hr Hr'). lia.
    + pose proof (length_filter keeps rows). lia.
Qed.

Lemma filter_data_clean_table_witness :
  [Transactions two_products] !! 0%nat = Some (Transactions two_products) ∧
  ∃ out,
    filter_data 0%nat [Transactions two_products]
      = ([Transactions two_products] ++ [Transactions out], Ok 1%nat) ∧
    (out = two_products ↔ ∀ r, r ∈ two_products → valid r) ∧
    (out ≠ two_products → (length out < length two_products)%nat).
Proof.
  split; [reflexivity|].
  apply (filter_data_clean_table [Transactions two_products] 0%nat two_products).
  reflexivity.
Defined.

(** ** Summary tables *)

Lemma get_transactions_summary (st : Store) (asked : list string) (df : loc) (f : DataFrame) :
  st !! df = Some f → is_summary f →
  get_transactions asked df st
  = (st, Raise (KeyError (first_missing (columns f) asked))).
Proof. intros H Hf. unfold get_transactions. rewrite H. by destruct f. Qed.

(** Each function first selects a column that no summary table has: the
    column of the error is one that was asked for and is missing. *)
Lemma summary_lacks_column (f : DataFrame) (asked : list string) :
  is_summary f →
  asked ∈ [ ["CustomerID"; "Quantity"; "UnitPrice"];
            ["CustomerID"; "InvoiceNo"];
            ["InvoiceDate"];
            ["Description"; "Quantity"];
            ["Description"; "Quantity"; "UnitPrice"] ] →
  first_missing (columns f) asked ∈ asked ∧
  first_missing (columns f) asked ∉ columns f.
Proof.
  intros Hf Hin. rewrite !elem_of_cons in Hin.
  destruct Hin as [->|[->|[->|[->|[->|Hnil]]]]]; [..|by apply elem_of_nil in Hnil];
    destruct f; try done;
    split; apply (bool_decide_unpack _); by vm_compute.
Qed.

Lemma summaries_are_terminal
    (sort_values : ∀ A : Type, (A → Z) → list A → list A)
    (st : Store) (df : loc) (f : DataFrame) :
  st !! df = Some f → is_summary f →
  let has_customer := bool_decide ("CustomerID" ∈ columns f) in
  raises_KeyError (filter_data df)
    (if has_customer then "Quantity" else "CustomerID") st ∧
  (∀ min_purchases,
     raises_KeyError (loyalty_customers sort_values df min_purchases)
       (if has_customer then "InvoiceNo" else "CustomerID") st) ∧
  raises_KeyError (quarterly_revenue df) "InvoiceDate" st ∧
  (∀ limit, raises_KeyError (high_demand_products sort_values df limit) "Description" st) ∧
  raises_KeyError (purchase_patterns df) "Description" st.
Proof.
  intros H Hf. unfold raises_KeyError.
  unfold filter_data, loyalty_customers, quarterly_revenue, high_demand_products,
    purchase_patterns, mbind, M_bind.
  repeat split; intros;
    rewrite (get_transactions_summary _ _ _ _ H Hf); by destruct f.
Qed.

(** X5. The aggregators do not chain: the table any of them returns lacks
    a column that each of the five functions selects, so passing it on
    raises [KeyError] for the first such column and leaves the store as it
    was. [quarterly_revenue] misses [InvoiceDate], and raises before it
    writes anything; [high_demand_products] and [purchase_patterns] miss
    [Description]. The table of [loyalty_customers] is the only one with a
    [CustomerID] column: on it [filter_data] gets as far as [Quantity] and
    [loyalty_customers] as far as [InvoiceNo]; on the other tables both
    miss [CustomerID]. *)
Theorem aggregators_do_not_chain
    (sort_values : ∀ A : Type, (A → Z) → list A → list A)
    (st : Store) (df : loc) (rows : list Row) (min_purchases limit : Z)
    (first : M loc) (st' : Store) (summary : loc) :
  st !! df = Some (Transactions rows) →
  first ∈ [ loyalty_customers sort_values df min_purchases;
            quarterly_revenue df;
            high_demand_products sort_values df limit;
            purchase_patterns df ] →
  first st = (st', Ok summary) →
  ∃ f,
    st' !! summary = Some f ∧
    is_summary f ∧
    ("CustomerID" ∈ columns f ↔
       first st = loyalty_customers sort_values df min_purchases st) ∧
    let has_customer := bool_decide ("CustomerID" ∈ columns f) in
    raises_KeyError (filter_data summary)
      (if has_customer then "Quantity" else "CustomerID") st' ∧
    (∀ m, raises_KeyError (loyalty_customers sort_values summary m)
            (if has_customer then "InvoiceNo" else "CustomerID") st') ∧
    raises_KeyError (quarterly_revenue summary) "InvoiceDate" st' ∧
    (∀ n, raises_KeyError (high_demand_products sort_values summary n)
            "Description" st') ∧
    raises_KeyError (purchase_patterns summary) "Description" st'.
Proof.
  intros H Hfirst Hrun.
  pose proof (loyalty_customers_run sort_values st df rows min_purchases H) as Hloyal.
  assert (∃ f, st' !! summary = Some f ∧ is_summary f ∧
               ("CustomerID" ∈ columns f ↔
                  first st = loyalty_customers sort_values df min_purchases st))
    as (f & Hf & Hsum & Hcol).
  { rewrite !elem_of_cons in Hfirst.
    destruct Hfirst as [->|[->|[->|[->|Hnil]]]]; [..|by apply elem_of_nil in Hnil].
    - rewrite Hloyal in Hrun. injection Hrun as <- <-.
      eexists. rewrite lookup_new_frame. split; [done|]. split; [done|].
      split; [done|]. intros _. apply (bool_decide_unpack _). by vm_compute.
    - rewrite Hrun, Hloyal.
      unfold quarterly_revenue, mbind, M_bind, lift, set_frame in Hrun.
      rewrite (get_transactions_run _ _ _ _ H) in Hrun.
      destruct (pd.to_datetime (InvoiceDate <$> rows)) as [dates|]; [|done].
      destruct (get_transactions _ df _) as [st1 [rows1|]]; [|done].
      destruct (get_transactions _ df _) as [st2 [rows2|]]; [|done].
      destruct (pd.groupby_quarter_sum rows2) as [out|]; [|done].
      unfold new_frame in Hrun. injection Hrun as <- <-.
      eexists. rewrite lookup_new_frame. split; [done|]. split; [done|]. split.
      + intros Hin. exfalso. revert Hin. apply (bool_decide_unpack _). by vm_compute.
      + intros Heq. apply (f_equal fst) in Heq. simpl in Heq.
        by apply app_inj_tail in Heq as [_ ?].
    - rewrite Hrun, Hloyal.
      rewrite (high_demand_products_run _ _ _ _ _ H) in Hrun.
      injection Hrun as <- <-.
      eexists. rewrite lookup_new_frame. split; [done|]. split; [done|]. split.
      + intros Hin. exfalso. revert Hin. apply (bool_decide_unpack _). by vm_compute.
      + intros Heq. apply (f_equal fst) in Heq. simpl in Heq.
        by apply app_inj_tail in Heq as [_ ?].
    - rewrite Hrun, Hloyal.
      rewrite (purchase_patterns_run _ _ _ H) in Hrun.
      injection Hrun as <- <-.
      eexists. rewrite lookup_new_frame. split; [done|]. split; [done|]. split.
      + intros Hin. exfalso. revert Hin. apply (bool_decide_unpack _). by vm_compute.
      + intros Heq. apply (f_equal fst) in Heq. simpl in Heq.
        by apply app_inj_tail in Heq as [_ ?]. }
  exists f. split; [done|]. split; [done|]. split; [done|].
  by apply (summaries_are_terminal sort_values st' summary f).
Qed.

Lemma aggregators_do_not_chain_witness :
  let st := [Transactions two_customers] in
  let st' := [Transactions two_customers; LoyaltyTable [(1, 2)]] in
  st !! 0%nat = Some (Transactions two_customers) ∧
  loyalty_customers stable_sort_desc 0%nat 2
    ∈ [ loyalty_customers stable_sort_desc 0%nat 2;
        quarterly_revenue 0%nat;
        high_demand_products stable_sort_desc 0%nat 1;
        purchase_patterns 0%nat ] ∧
  loyalty_customers stable_sort_desc 0%nat 2 st = (st', Ok 1%nat) ∧
  ∃ f,
    st' !! 1%nat = Some f ∧
    is_summary f ∧
    ("CustomerID" ∈ columns f ↔
       loyalty_customers stable_sort_desc 0%nat 2 st
       = loyalty_customers stable_sort_desc 0%nat 2 st) ∧
    let has_customer := bool_decide ("CustomerID" ∈ columns f) in
    raises_KeyError (filter_data 1%nat)
      (if has_customer then "Quantity" else "CustomerID") st' ∧
    (∀ m, raises_KeyError (loyalty_customers stable_sort_desc 1%nat m)
            (if has_customer then "InvoiceNo" else "CustomerID") st') ∧
    raises_KeyError (quarterly_revenue 1%nat) "InvoiceDate" st' ∧
    (∀ n, raises_KeyError (high_demand_products stable_sort_desc 1%nat n)
            "Description" st') ∧
    raises_KeyError (purchase_patterns 1%nat) "Description" st'.
Proof.
  intros st st'.
  assert (loyalty_customers stable_sort_desc 0%nat 2
            ∈ [ loyalty_customers stable_sort_desc 0%nat 2;
                quarterly_revenue 0%nat;
                high_demand_products stable_sort_desc 0%nat 1;
                purchase_patterns 0%nat ]) as Hin.
  { left. }
  split; [reflexivity|]. split; [exact Hin|]. split; [reflexivity|].
  exact (aggregators_do_not_chain stable_sort_desc st 0%nat two_customers 2 1
           (loyalty_customers stable_sort_desc 0%nat 2) st' 1%nat eq_refl Hin eq_refl).
Defined.

(** The table of [loyalty_customers] has a [CustomerID] column, so the
    cleaner gets past its first selection and misses [Quantity], and
    [loyalty_customers] itself misses [InvoiceNo]; the table of
    [purchase_patterns] has no [CustomerID] to begin with. *)
Example summary_tables_passed_on :
  let loyal := [Transactions two_customers; LoyaltyTable [(1, 2)]] in
  let patterns := [Transactions two_products;
                   PatternTable (product_analysis two_products)] in
  filter_data 1%nat loyal = (loyal, Raise (KeyError "Quantity")) ∧
  loyalty_customers stable_sort_desc 1%nat 2 loyal
    = (loyal, Raise (KeyError "InvoiceNo")) ∧
  filter_data 1%nat patterns = (patterns, Raise (KeyError "CustomerID")) ∧
  loyalty_customers stable_sort_desc 1%nat 2 patterns
    = (patterns, Raise (KeyError "CustomerID")).
Proof. repeat split. Qed.

(** ** loyalty_customers: more *)

Lemma filter_fmap_comm {A B} (f : A → B) (P : B → Prop) `{∀ y, Decision (P y)}
    (l : list A) :
  filter P (f <$> l) = f <$> filter (λ x, P (f x)) l.
Proof.
  induction l as [|x l IH]; [done|].
  rewrite fmap_cons, !filter_cons. case_decide; by rewrite IH.
Qed.

Lemma omap_fmap_comm {A B C} (f : A → B) (g : B → option C) (l : list A) :
  omap g (f <$> l) = omap (λ x, g (f x)) l.
Proof. induction l as [|x l IH]; [done|]. csimpl. by rewrite IH. Qed.

Lemma length_remove_dups_le `{EqDecision B} (l : list B) :
  (length (remove_dups l) ≤ length l)%nat.
Proof.
  induction l as [|x l IH]; [done|]. simpl. case_decide; simpl; lia.
Qed.

Lemma nunique_bounds `{EqDecision B} (values : list B) :
  values ≠ [] → 1 ≤ pd.nunique values ≤ Z.of_nat (length values).
Proof.
  intros Hne. unfold pd.nunique. pose proof (length_remove_dups_le values).
  split; [|lia]. destruct values as [|x values]; [done|].
  assert (x ∈ remove_dups (x :: values)) as Hx.
  { apply elem_of_remove_dups. left. }
  destruct (remove_dups (x :: values)); [by apply elem_of_nil in Hx|simpl; lia].
Qed.

Lemma omap_CustomerID_pairs (rows : list Row) :
  omap CustomerID rows
  = omap fst ((λ r, (CustomerID r, InvoiceNo r)) <$> pd.dropna CustomerID rows).
Proof.
  rewrite omap_fmap_comm. unfold pd.dropna. simpl.
  induction rows as [|r rows IH]; [done|].
  rewrite filter_cons. destruct (decide (is_Some (CustomerID r))) as [[c Hc]|Hn].
  - csimpl. by rewrite Hc, IH.
  - csimpl. rewrite IH. destruct (CustomerID r) as [c|]; [|done].
    destruct Hn. by exists c.
Qed.

Lemma invoices_pairs (rows : list Row) (c : Z) :
  InvoiceNo <$> filter (λ r, CustomerID r = Some c) rows
  = snd <$> filter (λ p : option Z * string, p.1 = Some c)
              ((λ r, (CustomerID r, InvoiceNo r)) <$> pd.dropna CustomerID rows).
Proof.
  rewrite filter_fmap_comm, <- list_fmap_compose. unfold pd.dropna. simpl.
  rewrite list_filter_filter. f_equal. apply list_filter_iff. intros r.
  split; [|tauto]. intros Hc. split; [done|]. by rewrite Hc.
Qed.

Lemma customer_purchases_pairs (rows1 rows2 : list Row) :
  (λ r, (CustomerID r, InvoiceNo r)) <$> pd.dropna CustomerID rows1
  = (λ r, (CustomerID r, InvoiceNo r)) <$> pd.dropna CustomerID rows2 →
  customer_purchases rows1 = customer_purchases rows2.
Proof.
  intros Heq. unfold customer_purchases, pd.groupby, pd.group_keys.
  rewrite !omap_CustomerID_pairs, Heq. rewrite <- !list_fmap_compose.
  apply list_fmap_ext. intros i c _. simpl.
  by rewrite !invoices_pairs, Heq.
Qed.

Section loyalty_facts.
Variable sort_values : ∀ A : Type, (A → Z) → list A → list A.
Hypothesis sort_values_sorts : sorts_descending sort_values.

Lemma loyal_customers_elem (rows : list Row) (min_purchases c n : Z) :
  (c, n) ∈ loyal_customers sort_values rows min_purchases ↔
  (c, n) ∈ customer_purchases rows ∧ min_purchases ≤ n.
Proof.
  rewrite (loyal_customers_Permutation sort_values sort_values_sorts).
  rewrite list_elem_of_filter. simpl. rewrite Z.leb_le. tauto.
Qed.

(** X6. Every [PurchaseCount] that [loyalty_customers] reports is at
    least 1 and at most the number of rows of that customer. So a
    threshold of 1 or less keeps every customer, and a threshold above the
    number of rows of the table leaves an empty result. *)
Theorem loyalty_customers_count_bounds
    (st : Store) (df : loc) (rows : list Row) (min_purchases : Z) :
  st !! df = Some (Transactions rows) →
  ∃ out,
    loyalty_customers sort_values df min_purchases st
      = (st ++ [LoyaltyTable out], Ok (length st)) ∧
    (∀ c n, (c, n) ∈ out →
       1 ≤ n ≤ Z.of_nat (length (filter (λ r, CustomerID r = Some c) rows))) ∧
    (min_purchases ≤ 1 →
       ∀ r c, r ∈ rows → CustomerID r = Some c → c ∈ out.*1) ∧
    (Z.of_nat (length rows) < min_purchases → out = []).
Proof.
  intros H. exists (loyal_customers sort_values rows min_purchases).
  split; [by apply loyalty_customers_run|].
  assert (∀ c n, (c, n) ∈ customer_purchases rows →
            1 ≤ n ≤ Z.of_nat (length (filter (λ r, CustomerID r = Some c) rows)))
    as Hbound.
  { intros c n Hin. apply customer_purchases_elem in Hin as [(r & Hr & Hc) ->].
    rewrite <- (length_fmap InvoiceNo). apply nunique_bounds.
    intros Hnil. apply fmap_nil_inv in Hnil.
    assert (r ∈ filter (λ r, CustomerID r = Some c) rows) as Hin
      by (by apply list_elem_of_filter).
    rewrite Hnil in Hin. by apply elem_of_nil in Hin. }
  split; [|split].
  - intros c n Hin. apply loyal_customers_elem in Hin as [Hin _]. by apply Hbound.
  - intros Hmin r c Hr Hc. apply list_elem_of_fmap.
    exists (c, pd.nunique (InvoiceNo <$> filter (λ r, CustomerID r = Some c) rows)).
    split; [done|].
    assert ((c, pd.nunique (InvoiceNo <$> filter (λ r, CustomerID r = Some c) rows))
              ∈ customer_purchases rows) as Hin.
    { apply customer_purchases_elem. split; [by exists r|done]. }
    apply loyal_customers_elem. split; [done|].
    pose proof (Hbound _ _ Hin). lia.
  - intros Hbig. apply elem_of_nil_inv. intros [c n] Hin.
    apply loyal_customers_elem in Hin as [Hin Hmin].
    pose proof (Hbound _ _ Hin) as Hn.
    pose proof (length_filter (λ r, CustomerID r = Some c) rows). lia.
Qed.

(** X7. Raising the threshold of [loyalty_customers] only removes rows:
    every row of the result for a higher threshold is a row of the result
    for a lower one, which is at least as long. *)
Theorem loyalty_customers_threshold
    (st : Store) (df : loc) (rows : list Row) (low high : Z) :
  st !! df = Some (Transactions rows) →
  low ≤ high →
  ∃ out_low out_high,
    loyalty_customers sort_values df low st
      = (st ++ [LoyaltyTable out_low], Ok (length st)) ∧
    loyalty_customers sort_values df high st
      = (st ++ [LoyaltyTable out_high], Ok (length st)) ∧
    (∀ x, x ∈ out_high → x ∈ out_low) ∧
    (length out_high ≤ length out_low)%nat.
Proof.
  intros H Hle. eexists _, _.
  split; [by apply loyalty_customers_run|].
  split; [by apply loyalty_customers_run|]. split.
  - intros [c n]. rewrite !loyal_customers_elem. intros [Hin Hn].
    split; [done|lia].
  - rewrite !(loyal_customers_Permutation sort_values sort_values_sorts).
    assert (filter (λ c : Z * Z, (high <=? c.2) = true) (customer_purchases rows)
            = filter (λ c : Z * Z, (high <=? c.2) = true)
                (filter (λ c : Z * Z, (low <=? c.2) = true) (customer_purchases rows)))
      as ->.
    { rewrite list_filter_filter. apply list_filter_iff. intros [c n]. simpl.
      rewrite !Z.leb_le. lia. }
    apply length_filter.
Qed.

(** X8. On a table without rows the three aggregators that group by a
    column return a table without rows, whatever the threshold or the
    limit; none raises. *)
Theorem aggregators_on_empty_table
    (st : Store) (df : loc) (min_purchases limit : Z) :
  st !! df = Some (Transactions []) →
  loyalty_customers sort_values df min_purchases st
    = (st ++ [LoyaltyTable []], Ok (length st)) ∧
  high_demand_products sort_values df limit st
    = (st ++ [ProductTable []], Ok (length st)) ∧
  purchase_patterns df st = (st ++ [PatternTable []], Ok (length st)).
Proof.
  intros H.
  assert (∀ A (col : A → Z), sort_values A col [] = []) as Hnil.
  { intros A col. apply Permutation_nil_r, (proj1 sort_values_sorts). }
  rewrite (loyalty_customers_run _ _ _ _ _ H),
    (high_demand_products_run _ _ _ _ _ H), (purchase_patterns_run _ _ _ H).
  unfold loyal_customers, bestsellers, pd.head. cbv zeta.
  change (customer_purchases []) with (@nil (Z * Z)).
  change (product_sales []) with (@nil (string * Z)).
  change (product_analysis []) with (@nil (string * Q * Q)).
  simpl pd.getitem. rewrite !Hnil. by destruct (0 <=? limit); rewrite take_nil.
Qed.

End loyalty_facts.

(** X9. [loyalty_customers] looks at nothing but the [CustomerID] and
    [InvoiceNo] cells of the rows that have a customer: two tables that
    agree on these give the same result. Rows without a customer are
    passed over, and quantities, prices and dates play no part. *)
Theorem loyalty_customers_reads_two_columns
    (sort_values : ∀ A : Type, (A → Z) → list A → list A)
    (st1 st2 : Store) (df1 df2 : loc) (rows1 rows2 : list Row) (min_purchases : Z) :
  st1 !! df1 = Some (Transactions rows1) →
  st2 !! df2 = Some (Transactions rows2) →
  (λ r, (CustomerID r, InvoiceNo r)) <$> pd.dropna CustomerID rows1
  = (λ r, (CustomerID r, InvoiceNo r)) <$> pd.dropna CustomerID rows2 →
  ∃ out,
    loyalty_customers sort_values df1 min_purchases st1
      = (st1 ++ [LoyaltyTable out], Ok (length st1)) ∧
    loyalty_customers sort_values df2 min_purchases st2
      = (st2 ++ [LoyaltyTable out], Ok (length st2)).
Proof.
  intros H1 H2 Heq. exists (loyal_customers sort_values rows1 min_purchases).
  split; [by apply loyalty_customers_run|].
  rewrite (loyalty_customers_run _ _ _ _ _ H2).
  unfold loyal_customers. by rewrite (customer_purchases_pairs _ _ Heq).
Qed.

(** ** Sums over groups *)

Section group_sums.
Context {V : Type} (op : V → V → V) (e : V).
Hypothesis op_assoc : ∀ x y z, op x (op y z) = op (op x y) z.
Hypothesis op_comm : ∀ x y, op x y = op y x.
Hypothesis op_left_id : ∀ x, op e x = x.

Lemma foldr_op_Permutation (l1 l2 : list V) :
  l1 ≡ₚ l2 → foldr op e l1 = foldr op e l2.
Proof.
  induction 1 as [|x l1 l2 _ IH|x y l|l1 l2 l3 _ IH1 _ IH2]; simpl.
  - done.
  - by rewrite IH.
  - by rewrite !op_assoc, (op_comm y x).
  - by rewrite IH1.
Qed.

Lemma foldr_op_add_at `{EqDecision K} (g : K → V) (v : V) (k0 : K) (keys : list K) :
  NoDup keys → k0 ∈ keys →
  foldr op e ((λ k, if decide (k0 = k) then op v (g k) else g k) <$> keys)
  = op v (foldr op e (g <$> keys)).
Proof.
  induction 1 as [|k keys Hk Hnd IH]; intros Hin; [by apply elem_of_nil in Hin|].
  rewrite !fmap_cons. cbn [foldr]. case_decide as Hk0.
  - subst k0. rewrite <- op_assoc. do 3 f_equal.
    apply list_fmap_ext. intros i k' Hk'. rewrite decide_False; [done|].
    intros ->. apply Hk. by eapply list_elem_of_lookup_2.
  - apply elem_of_cons in Hin as [?|Hin]; [done|].
    rewrite (IH Hin). by rewrite !op_assoc, (op_comm (g k) v).
Qed.

Lemma group_totals {A} `{EqDecision K} (key : A → option K) (f : A → V)
    (keys : list K) (rows : list A) :
  NoDup keys →
  (∀ r k, r ∈ rows → key r = Some k → k ∈ keys) →
  foldr op e ((λ k, foldr op e (f <$> filter (λ r, key r = Some k) rows)) <$> keys)
  = foldr op e (f <$> filter (λ r, is_Some (key r)) rows).
Proof.
  intros Hnd. induction rows as [|r rows IH]; intros Hcover.
  - simpl. clear Hnd Hcover. induction keys as [|k keys IHk]; [done|].
    rewrite fmap_cons. cbn [foldr]. rewrite IHk. apply op_left_id.
  - assert (∀ r k, r ∈ rows → key r = Some k → k ∈ keys) as Hcover'.
    { intros r' k Hr'. apply Hcover. by right. }
    specialize (IH Hcover'). rewrite (filter_cons (λ r, is_Some (key r))).
    destruct (key r) as [k0|] eqn:Hkey.
    + rewrite decide_True by (by eexists). rewrite fmap_cons. cbn [foldr].
      rewrite <- IH.
      rewrite <- (foldr_op_add_at
                    (λ k, foldr op e (f <$> filter (λ r, key r = Some k) rows))
                    (f r) k0 keys Hnd); [|apply (Hcover r); [left|done]].
      f_equal. apply list_fmap_ext. intros i k _. rewrite filter_cons, Hkey.
      destruct (decide (k0 = k)) as [->|Hne].
      * by rewrite decide_True.
      * rewrite decide_False; [done|]. by intros [= ?].
    + rewrite decide_False by (by intros [? ?]).
      rewrite <- IH. f_equal. apply list_fmap_ext. intros i k _.
      rewrite filter_cons, Hkey. by rewrite decide_False.
Qed.

End group_sums.

Lemma Qplus_assoc_eq (x y z : Q) : (x + (y + z))%Q = (x + y + z)%Q.
Proof.
  destruct x as [a b], y as [c d], z as [g h]. unfold Qplus. simpl. f_equal.
  - rewrite !Pos2Z.inj_mul. ring.
  - apply Pos.mul_assoc.
Qed.

Lemma Qplus_comm_eq (x y : Q) : (x + y)%Q = (y + x)%Q.
Proof.
  destruct x as [a b], y as [c d]. unfold Qplus. simpl. f_equal.
  - ring.
  - apply Pos.mul_comm.
Qed.

Lemma Qplus_0_l_eq (x : Q) : (0 + x)%Q = x.
Proof.
  destruct x as [a b]. unfold Qplus. simpl. f_equal. lia.
Qed.

Lemma total_Permutation (l1 l2 : list Z) : l1 ≡ₚ l2 → total l1 = total l2.
Proof. apply foldr_op_Permutation; intros; lia. Qed.

Lemma sum_Permutation (l1 l2 : list Z) : l1 ≡ₚ l2 → pd.sum l1 = pd.sum l2.
Proof. intros Hp. by rewrite !sum_total, (total_Permutation _ _ Hp). Qed.

(** Summing sums that have wrapped gives what summing the numbers gives:
    the arithmetic is that of the integers modulo [2 ^ 64]. *)
Lemma sum_int64 (values : list Z) : pd.sum (pd.int64 <$> values) = pd.sum values.
Proof.
  rewrite !sum_total. induction values as [|v values IH]; [done|].
  rewrite fmap_cons. unfold total in *. cbn [foldr].
  rewrite (Z.add_comm (pd.int64 v)), int64_add_r, Z.add_comm.
  rewrite <- int64_add_r, IH, int64_add_r. done.
Qed.

Lemma total_nonnegative (values : list Z) :
  (∀ v, v ∈ values → 0 ≤ v) → 0 ≤ total values.
Proof.
  induction values as [|v values IH]; intros Hall; [done|].
  assert (0 ≤ v) by (apply Hall; left).
  assert (0 ≤ total values) by (apply IH; intros w Hw; apply Hall; by right).
  unfold total in *. cbn [foldr]. lia.
Qed.

(** Of quantities that are not negative a part adds up to no more than
    the whole. *)
Lemma total_filter_le (P : Row → Prop) `{∀ r, Decision (P r)} (rows : list Row) :
  (∀ r, r ∈ rows → 0 ≤ Quantity r) →
  0 ≤ total (Quantity <$> filter P rows) ≤ total (Quantity <$> rows).
Proof.
  induction rows as [|r rows IH]; intros Hall; [done|].
  assert (0 ≤ Quantity r) by (apply Hall; left).
  assert (0 ≤ total (Quantity <$> filter P rows) ≤ total (Quantity <$> rows)) as Hrest
    by (apply IH; intros r' Hr'; apply Hall; by right).
  rewrite filter_cons. destruct (decide (P r)); rewrite ?fmap_cons;
    unfold total in *; cbn [foldr]; lia.
Qed.

(** When the quantities are not negative and add up to less than
    [2 ^ 63], no product's sum wraps. *)
Lemma quantity_sold_fits (rows : list Row) (name : string) :
  (∀ r, r ∈ rows → 0 ≤ Quantity r) →
  total (Quantity <$> rows) < 2 ^ 63 →
  fits_int64 (quantity_sold name rows).
Proof.
  intros Hall Hlt. unfold fits_int64, quantity_sold.
  pose proof (total_filter_le (λ r, Description r = name) rows Hall). lia.
Qed.

Lemma qsum_Permutation (l1 l2 : list Q) : l1 ≡ₚ l2 → pd.qsum l1 = pd.qsum l2.
Proof.
  apply foldr_op_Permutation; auto using Qplus_assoc_eq, Qplus_comm_eq.
Qed.

Lemma mean_Permutation (l1 l2 : list Q) : l1 ≡ₚ l2 → pd.mean l1 = pd.mean l2.
Proof.
  intros Hp. unfold pd.mean.
  by rewrite (qsum_Permutation _ _ Hp), (Permutation_length Hp).
Qed.

Lemma nunique_Permutation `{EqDecision B} (l1 l2 : list B) :
  l1 ≡ₚ l2 → pd.nunique l1 = pd.nunique l2.
Proof.
  intros Hp. unfold pd.nunique. f_equal.
  apply Permutation_length, NoDup_Permutation; [apply NoDup_remove_dups..|].
  intros x. by rewrite !elem_of_remove_dups, Hp.
Qed.

(** ** high_demand_products: more *)

Lemma product_count (rows : list Row) :
  length (product_sales rows) = length (remove_dups (Description <$> rows)).
Proof.
  unfold product_sales, pd.groupby, pd.group_keys.
  rewrite !length_fmap, merge_sort_Permutation.
  assert (omap (λ r, Some (Description r)) rows = Description <$> rows) as ->; [|done].
  induction rows as [|r rows IH]; [done|]. csimpl. by rewrite IH.
Qed.

(** The quantities sold of the products, as numbers, in the order of the
    grouped table; [product_sales] has them as [int64]. *)
Lemma product_sales_int64 (rows : list Row) :
  (product_sales rows).*2
  = pd.int64 <$> ((λ k, quantity_sold k rows)
                    <$> pd.group_keys string_le (λ r, Some (Description r)) rows).
Proof.
  unfold product_sales, pd.groupby. rewrite <- !list_fmap_compose.
  apply list_fmap_ext. intros i k _. simpl. rewrite sum_total.
  unfold quantity_sold. do 3 f_equal.
  apply list_filter_iff. intros x. split; [by intros [= ->]|by intros ->].
Qed.

Lemma quantity_sold_total (rows : list Row) :
  total ((λ k, quantity_sold k rows)
           <$> pd.group_keys string_le (λ r, Some (Description r)) rows)
  = total (Quantity <$> rows).
Proof.
  assert ((λ k, quantity_sold k rows)
            <$> pd.group_keys string_le (λ r, Some (Description r)) rows
          = (λ k, foldr Z.add 0
                    (Quantity <$> filter (λ r, Some (Description r) = Some k) rows))
              <$> pd.group_keys string_le (λ r, Some (Description r)) rows) as ->.
  { apply list_fmap_ext. intros i k _. unfold quantity_sold, total. do 2 f_equal.
    apply list_filter_iff. intros x. split; [by intros ->|by intros [= ->]]. }
  unfold total.
  rewrite (group_totals Z.add 0 Z.add_assoc Z.add_comm Z.add_0_l
             (λ r, Some (Description r)) Quantity).
  - do 2 f_equal. apply filter_all. intros r _. by eexists.
  - apply NoDup_group_keys.
  - intros r k Hr Hk. apply elem_of_group_keys. by exists r.
Qed.

Lemma product_sales_total (rows : list Row) :
  pd.sum ((product_sales rows).*2) = pd.sum (Quantity <$> rows).
Proof.
  by rewrite product_sales_int64, sum_int64, !sum_total, quantity_sold_total.
Qed.

Lemma product_sales_exact (rows : list Row) :
  (∀ r, r ∈ rows → 0 ≤ Quantity r) →
  total (Quantity <$> rows) < 2 ^ 63 →
  total ((product_sales rows).*2) = total (Quantity <$> rows).
Proof.
  intros Hall Hlt. rewrite product_sales_int64, <- quantity_sold_total. f_equal.
  rewrite <- list_fmap_compose. apply list_fmap_ext. intros i k _. simpl.
  by apply int64_fits, quantity_sold_fits.
Qed.

Section high_demand_facts.
Variable sort_values : ∀ A : Type, (A → Z) → list A → list A.
Hypothesis sort_values_sorts : sorts_descending sort_values.

(** X10. How many rows [high_demand_products] returns, for every [limit]:
    with [limit] of at least 0 the smaller of [limit] and the number of
    distinct product names; with a negative [limit] all but the last
    [-limit] rows of the ranking, so the products with the least
    [TotalSold] are the ones left out, and nothing is left when [-limit]
    reaches the number of products. The result is always a prefix of the
    ranking, which is the grouped table, [TotalSold] being the [int64] sum
    of the product's quantities, put in descending order of
    [TotalSold]. *)
Theorem high_demand_products_row_count
    (st : Store) (sales_data : loc) (rows : list Row) (limit : Z) :
  st !! sales_data = Some (Transactions rows) →
  let products := length (remove_dups (Description <$> rows)) in
  ∃ ranked out,
    high_demand_products sort_values sales_data limit st
      = (st ++ [ProductTable out], Ok (length st)) ∧
    ranked ≡ₚ product_sales rows ∧
    StronglySorted (descending snd) ranked ∧
    length ranked = products ∧
    (0 ≤ limit →
       out = take (Z.to_nat limit) ranked ∧
       length out = (Z.to_nat limit `min` products)%nat) ∧
    (limit < 0 →
       out = take (products - Z.to_nat (- limit)) ranked ∧
       length out = (products - Z.to_nat (- limit))%nat).
Proof.
  intros H products.
  exists (sort_values _ snd (product_sales rows)), (bestsellers sort_values rows limit).
  assert (length (sort_values _ snd (product_sales rows)) = products) as Hlen.
  { by rewrite (proj1 sort_values_sorts), product_count. }
  split; [by apply high_demand_products_run|].
  split; [apply (proj1 sort_values_sorts)|].
  split; [apply (proj2 sort_values_sorts)|]. split; [done|].
  unfold bestsellers, pd.head. split.
  - intros Hpos. rewrite (proj2 (Z.leb_le 0 limit) Hpos).
    split; [done|]. by rewrite length_take, Hlen.
  - intros Hneg. rewrite (proj2 (Z.leb_gt 0 limit) Hneg), Hlen.
    split; [done|]. rewrite length_take, Hlen. lia.
Qed.

(** X11. Grouping loses no quantity. With a [limit] of at least the
    number of products, [Series.sum()] of the [TotalSold] column of the
    result is [Series.sum()] of the [Quantity] column of the input, both
    being [int64] sums. When the quantities are not negative and add up to
    less than [2 ^ 63], nothing wraps and the [TotalSold] column adds up
    to the quantity of the whole table. *)
Theorem high_demand_products_total
    (st : Store) (sales_data : loc) (rows : list Row) (limit : Z) :
  st !! sales_data = Some (Transactions rows) →
  Z.of_nat (length (remove_dups (Description <$> rows))) ≤ limit →
  ∃ out,
    high_demand_products sort_values sales_data limit st
      = (st ++ [ProductTable out], Ok (length st)) ∧
    pd.sum (out.*2) = pd.sum (Quantity <$> rows) ∧
    ((∀ r, r ∈ rows → 0 ≤ Quantity r) →
     total (Quantity <$> rows) < 2 ^ 63 →
     total (out.*2) = total (Quantity <$> rows)).
Proof.
  intros H Hlimit. exists (bestsellers sort_values rows limit).
  split; [by apply high_demand_products_run|].
  unfold bestsellers, pd.head. rewrite (proj2 (Z.leb_le 0 limit)) by lia.
  rewrite take_ge by (rewrite (proj1 sort_values_sorts), product_count; lia).
  split.
  - rewrite <- product_sales_total. apply sum_Permutation.
    by rewrite (proj1 sort_values_sorts).
  - intros Hall Hlt. rewrite <- (product_sales_exact rows Hall Hlt).
    apply total_Permutation. by rewrite (proj1 sort_values_sorts).
Qed.

End high_demand_facts.

(** ** The order of the rows *)

Section groupby_order.
Context {K : Type} `{EqDecision K} (le : relation K) `{!RelDecision le}.
Context `{!Transitive le, !Total le, !AntiSymm (=) le}.
Context {A : Type} (key : A → option K).

Lemma group_keys_Permutation (rows1 rows2 : list A) :
  rows1 ≡ₚ rows2 → pd.group_keys le key rows1 = pd.group_keys le key rows2.
Proof.
  intros Hp. unfold pd.group_keys.
  apply (Sorted_unique le); [apply Sorted_merge_sort; apply _..|].
  rewrite !merge_sort_Permutation.
  apply NoDup_Permutation; [apply NoDup_remove_dups..|].
  intros k. by rewrite !elem_of_remove_dups, Hp.
Qed.

Lemma groupby_summary_Permutation {B} (agg : list A → B) (rows1 rows2 : list A) :
  (∀ l1 l2, l1 ≡ₚ l2 → agg l1 = agg l2) →
  rows1 ≡ₚ rows2 →
  (λ g, (g.1, agg g.2)) <$> pd.groupby le key rows1
  = (λ g, (g.1, agg g.2)) <$> pd.groupby le key rows2.
Proof.
  intros Hagg Hp. unfold pd.groupby.
  rewrite <- !list_fmap_compose, (group_keys_Permutation _ _ Hp).
  apply list_fmap_ext. intros i k _. simpl. f_equal.
  apply Hagg. by rewrite Hp.
Qed.

End groupby_order.

Lemma customer_purchases_Permutation (rows1 rows2 : list Row) :
  rows1 ≡ₚ rows2 → customer_purchases rows1 = customer_purchases rows2.
Proof.
  apply (groupby_summary_Permutation Z.le CustomerID (λ g, pd.nunique (InvoiceNo <$> g))).
  intros l1 l2 Hl. apply nunique_Permutation. by rewrite Hl.
Qed.

Lemma product_sales_Permutation (rows1 rows2 : list Row) :
  rows1 ≡ₚ rows2 → product_sales rows1 = product_sales rows2.
Proof.
  apply (groupby_summary_Permutation string_le (λ r, Some (Description r))
           (λ g, pd.sum (Quantity <$> g))).
  intros l1 l2 Hl. apply sum_Permutation. by rewrite Hl.
Qed.

Lemma product_analysis_Permutation (rows1 rows2 : list Row) :
  rows1 ≡ₚ rows2 → product_analysis rows1 = product_analysis rows2.
Proof.
  intros Hp. unfold product_analysis, pd.groupby.
  rewrite <- !list_fmap_compose,
    (group_keys_Permutation string_le (λ r, Some (Description r)) _ _ Hp).
  apply list_fmap_ext. intros i k _. simpl.
  assert (filter (λ r, Some (Description r) = Some k) rows1
          ≡ₚ filter (λ r, Some (Description r) = Some k) rows2) as Hf
    by (by rewrite Hp).
  f_equal; [f_equal|]; apply mean_Permutation; by rewrite Hf.
Qed.

(** X12. The three aggregators that group by a column do not look at the
    order of the rows: two tables with the same rows in different orders
    give the same result, row for row. (This holds for every sort, also
    one that is not stable: the rows are grouped, and the groups put in
    key order, before anything is sorted by count or total.) *)
Theorem grouping_ignores_row_order
    (sort_values : ∀ A : Type, (A → Z) → list A → list A)
    (st1 st2 : Store) (df1 df2 : loc) (rows1 rows2 : list Row)
    (min_purchases limit : Z) :
  st1 !! df1 = Some (Transactions rows1) →
  st2 !! df2 = Some (Transactions rows2) →
  rows1 ≡ₚ rows2 →
  (∃ out,
     loyalty_customers sort_values df1 min_purchases st1
       = (st1 ++ [LoyaltyTable out], Ok (length st1)) ∧
     loyalty_customers sort_values df2 min_purchases st2
       = (st2 ++ [LoyaltyTable out], Ok (length st2))) ∧
  (∃ out,
     high_demand_products sort_values df1 limit st1
       = (st1 ++ [ProductTable out], Ok (length st1)) ∧
     high_demand_products sort_values df2 limit st2
       = (st2 ++ [ProductTable out], Ok (length st2))) ∧
  (∃ out,
     purchase_patterns df1 st1 = (st1 ++ [PatternTable out], Ok (length st1)) ∧
     purchase_patterns df2 st2 = (st2 ++ [PatternTable out], Ok (length st2))).
Proof.
  intros H1 H2 Hp. split; [|split]; eexists.
  - rewrite (loyalty_customers_run _ _ _ _ _ H1), (loyalty_customers_run _ _ _ _ _ H2).
    unfold loyal_customers. by rewrite (customer_purchases_Permutation _ _ Hp).
  - rewrite (high_demand_products_run _ _ _ _ _ H1),
      (high_demand_products_run _ _ _ _ _ H2).
    unfold bestsellers. by rewrite (product_sales_Permutation _ _ Hp).
  - rewrite (purchase_patterns_run _ _ _ H1), (purchase_patterns_run _ _ _ H2).
    by rewrite (product_analysis_Permutation _ _ Hp).
Qed.

Lemma foldr_min_Permutation (q1 q2 : Z) (qs1 qs2 : list Z) :
  q1 :: qs1 ≡ₚ q2 :: qs2 → foldr Z.min q1 qs1 = foldr Z.min q2 qs2.
Proof.
  intros Hp.
  pose proof (foldr_min_elem q1 qs1) as H1. rewrite Hp in H1.
  pose proof (foldr_min_elem q2 qs2) as H2. rewrite <- Hp in H2.
  pose proof (foldr_min_le _ _ _ H1). pose proof (foldr_min_le _ _ _ H2). lia.
Qed.

Lemma foldr_max_Permutation (q1 q2 : Z) (qs1 qs2 : list Z) :
  q1 :: qs1 ≡ₚ q2 :: qs2 → foldr Z.max q1 qs1 = foldr Z.max q2 qs2.
Proof.
  intros Hp.
  pose proof (foldr_max_elem q1 qs1) as H1. rewrite Hp in H1.
  pose proof (foldr_max_elem q2 qs2) as H2. rewrite <- Hp in H2.
  pose proof (foldr_max_ge _ _ _ H1). pose proof (foldr_max_ge _ _ _ H2). lia.
Qed.

Lemma groupby_quarter_sum_Permutation (rows1 rows2 : list Row) :
  rows1 ≡ₚ rows2 → pd.groupby_quarter_sum rows1 = pd.groupby_quarter_sum rows2.
Proof.
  intros Hp. unfold pd.groupby_quarter_sum.
  destruct rows1 as [|r1 rows1].
  { apply Permutation_nil_l in Hp. by subst. }
  destruct rows2 as [|r2 rows2].
  { by apply Permutation_nil_r in Hp. }
  assert (omap pd.row_quarter (r1 :: rows1) ≡ₚ omap pd.row_quarter (r2 :: rows2))
    as Hq by (by rewrite Hp).
  destruct (omap pd.row_quarter (r1 :: rows1)) as [|q1 qs1].
  { apply Permutation_nil_l in Hq. by rewrite <- Hq. }
  destruct (omap pd.row_quarter (r2 :: rows2)) as [|q2 qs2].
  { by apply Permutation_nil_r in Hq. }
  cbv zeta.
  rewrite (foldr_min_Permutation _ _ _ _ Hq), (foldr_max_Permutation _ _ _ _ Hq).
  f_equal. apply list_fmap_ext. intros i b _. f_equal.
  apply qsum_Permutation. by rewrite Hp.
Qed.

(** X13. [quarterly_revenue] does not look at the order of the rows
    either: on two tables with the same rows in different orders, with
    dates that parse, it returns the same quarters with the same
    revenue. *)
Theorem quarterly_revenue_ignores_row_order
    (st1 st2 : Store) (df1 df2 : loc) (rows1 rows2 : list Row) :
  st1 !! df1 = Some (Transactions rows1) →
  st2 !! df2 = Some (Transactions rows2) →
  rows1 ≡ₚ rows2 →
  dates_parse rows1 →
  some_dated rows1 →
  ∃ out,
    quarterly_revenue df1 st1
      = (<[df1 := Transactions (with_revenue <$> rows1)]> st1
           ++ [RevenueTable out], Ok (length st1)) ∧
    quarterly_revenue df2 st2
      = (<[df2 := Transactions (with_revenue <$> rows2)]> st2
           ++ [RevenueTable out], Ok (length st2)).
Proof.
  intros H1 H2 Hp Hparse Hd.
  assert (dates_parse rows2) as Hparse2.
  { intros r raw Hr. apply (Hparse r raw). by rewrite Hp. }
  destruct (some_dated_quarters rows1 Hd) as (q & qs & Hq).
  rewrite (quarterly_revenue_run _ _ _ H1 Hparse),
    (quarterly_revenue_run _ _ _ H2 Hparse2).
  rewrite <- (groupby_quarter_sum_Permutation (with_revenue <$> rows1)
                (with_revenue <$> rows2)) by (by rewrite Hp).
  rewrite (quarterly_summary_with_revenue _ _ _ Hq). by eexists.
Qed.

(** ** After cleaning *)

Lemma qsum_nonnegative (values : list Q) :
  (∀ v, v ∈ values → (0 <= v)%Q) → (0 <= pd.qsum values)%Q.
Proof.
  induction values as [|v values IH]; intros Hall; simpl; [done|].
  assert (0 <= v)%Q by (apply Hall; left).
  assert (0 <= pd.qsum values)%Q by (apply IH; intros w Hw; apply Hall; by right).
  unfold pd.qsum in *. change 0%Q with (0 + 0)%Q. by apply Qplus_le_compat.
Qed.

Lemma mean_nonnegative (values : list Q) :
  (∀ v, v ∈ values → (0 <= v)%Q) → (0 <= pd.mean values)%Q.
Proof.
  intros Hall. unfold pd.mean, Qdiv.
  apply Qmult_le_0_compat; [by apply qsum_nonnegative|].
  apply Qinv_le_0_compat. unfold Qle. simpl. lia.
Qed.

Lemma revenue_nonnegative (r : Row) : valid r → (0 <= revenue r)%Q.
Proof.
  intros (_ & Hq & Hp). unfold revenue.
  apply Qmult_le_0_compat; [done|]. unfold Qle. simpl. lia.
Qed.

Section cleaned_facts.
Variable sort_values : ∀ A : Type, (A → Z) → list A → list A.
Hypothesis sort_values_sorts : sorts_descending sort_values.

(** X14. After cleaning no mean is negative, and no total that has not
    wrapped. On the table [filter_data] returns, every mean quantity and
    mean price of [purchase_patterns] is at least 0; and when the
    quantities of that table add up to less than [2 ^ 63], every
    [TotalSold] of [high_demand_products], for any [limit], is the
    quantity sold of the product and at least 0. (Without that bound a
    [TotalSold] can be negative: [cleaned_total_wraps].) *)
Theorem cleaned_totals_nonnegative
    (st : Store) (raw : loc) (rows : list Row) (limit : Z) :
  st !! raw = Some (Transactions rows) →
  ∃ st1 clean top summary,
    filter_data raw st = (st1, Ok clean) ∧
    high_demand_products sort_values clean limit st1
      = (st1 ++ [ProductTable top], Ok (length st1)) ∧
    (total (Quantity <$> cleaned_data rows) < 2 ^ 63 →
     ∀ name sold, (name, sold) ∈ top →
       sold = quantity_sold name (cleaned_data rows) ∧ 0 ≤ sold) ∧
    purchase_patterns clean st1
      = (st1 ++ [PatternTable summary], Ok (length st1)) ∧
    (∀ item mean_quantity mean_price,
       (item, mean_quantity, mean_price) ∈ summary →
       (0 <= mean_quantity)%Q ∧ (0 <= mean_price)%Q).
Proof.
  intros H.
  pose proof (lookup_new_frame st (Transactions (cleaned_data rows))) as Hclean.
  assert (∀ P `{∀ r : Row, Decision (P r)} r,
            r ∈ filter P (cleaned_data rows) → valid r) as Hvalid.
  { intros P ? r Hr. apply list_elem_of_filter in Hr as [_ Hr].
    by apply cleaned_data_elem in Hr as [Hr _]. }
  eexists _, _, _, _. split; [by apply filter_data_run|].
  split; [by apply high_demand_products_run|]. split; [|split].
  - intros Hlt name sold Hin.
    assert ((name, sold) ∈ product_sales (cleaned_data rows)) as Hsales.
    { rewrite <- (proj1 sort_values_sorts _ snd).
      unfold bestsellers, pd.head in Hin.
      destruct (0 <=? limit); eapply subseteq_take; exact Hin. }
    apply product_sales_elem in Hsales as [_ ->].
    assert (∀ r, r ∈ cleaned_data rows → 0 ≤ Quantity r) as Hall.
    { intros r Hr. by apply cleaned_data_elem in Hr as [(_ & Hq & _) _]. }
    rewrite sum_total.
    change (total (Quantity <$> filter (λ r, Description r = name) (cleaned_data rows)))
      with (quantity_sold name (cleaned_data rows)).
    rewrite (int64_fits _ (quantity_sold_fits _ name Hall Hlt)).
    split; [done|]. unfold quantity_sold.
    apply (total_filter_le (λ r, Description r = name) _ Hall).
  - by apply purchase_patterns_run.
  - intros item mq mp Hin. unfold product_analysis, pd.groupby in Hin.
    rewrite <- list_fmap_compose in Hin.
    apply list_elem_of_fmap in Hin as (k & [= -> -> ->] & _).
    split; apply mean_nonnegative; intros v Hv;
      apply list_elem_of_fmap in Hv as (r & -> & Hr);
      destruct (Hvalid _ _ r Hr) as (_ & Hq & Hp); [|done].
    unfold Qle. simpl. lia.
Qed.

End cleaned_facts.

(** The bound is needed: the three rows of [bulk] are valid, the cleaner
    keeps them all, and product A, which sold [2 ^ 63] pieces, is reported
    with a negative [TotalSold]. *)
Example cleaned_total_wraps :
  filter_data 0%nat [Transactions bulk]
    = ([Transactions bulk; Transactions bulk], Ok 1%nat) ∧
  total (Quantity <$> cleaned_data bulk) = 2 ^ 63 + 1 ∧
  high_demand_products stable_sort_desc 1%nat 2 [Transactions bulk; Transactions bulk]
    = ([Transactions bulk; Transactions bulk;
        ProductTable [("B", 1); ("A", - 2 ^ 63)]], Ok 2%nat).
Proof. split; [|split]; vm_compute; reflexivity. Qed.

(** X15. After cleaning no quarter has negative revenue: on the table
    [filter_data] returns, when its dates parse and one row is dated,
    every revenue [quarterly_revenue] reports is at least 0. The call
    writes to the cleaned table; the table that was cleaned stays as it
    was. *)
Theorem cleaned_revenue_nonnegative (st : Store) (raw : loc) (rows : list Row) :
  st !! raw = Some (Transactions rows) →
  dates_parse (cleaned_data rows) →
  some_dated (cleaned_data rows) →
  ∃ st1 clean st2 report out,
    filter_data raw st = (st1, Ok clean) ∧
    quarterly_revenue clean st1 = (st2, Ok report) ∧
    st2 !! report = Some (RevenueTable out) ∧
    (∀ period total, (period, total) ∈ out → (0 <= total)%Q) ∧
    clean ≠ raw ∧
    st2 !! raw = Some (Transactions rows) ∧
    st2 !! clean = Some (Transactions (with_revenue <$> cleaned_data rows)).
Proof.
  intros H Hp Hd. pose proof (lookup_lt_Some _ _ _ H) as Hlt.
  pose proof (lookup_new_frame st (Transactions (cleaned_data rows))) as Hclean.
  destruct (quarterly_revenue_bins _ _ _ Hclean Hp Hd)
    as (first & last & Hrun & _).
  eexists _, _, _, _, _. split; [by apply filter_data_run|].
  split; [exact Hrun|].
  assert (length (<[length st := Transactions (with_revenue <$> cleaned_data rows)]>
                    (st ++ [Transactions (cleaned_data rows)]))
          = length (st ++ [Transactions (cleaned_data rows)])) as Hlen
    by apply length_insert.
  split; [rewrite <- Hlen; apply lookup_new_frame|]. split; [|split; [|split]].
  - intros period total Hin.
    apply list_elem_of_fmap in Hin as (q & [= -> ->] & _).
    apply qsum_nonnegative. intros v Hv.
    apply list_elem_of_fmap in Hv as (r & -> & Hr).
    apply list_elem_of_filter in Hr as [_ Hr].
    apply revenue_nonnegative. by apply cleaned_data_elem in Hr as [Hr _].
  - lia.
  - apply lookup_app_l_Some. rewrite list_lookup_insert_ne by lia.
    by apply lookup_app_l_Some.
  - apply lookup_app_l_Some. apply list_lookup_insert_eq.
    rewrite length_app. simpl. lia.
Qed.

(** ** quarterly_revenue: more *)

Lemma filter_ext_in {A} (P Q : A → Prop) `{∀ x, Decision (P x)} `{∀ x, Decision (Q x)}
    (l : list A) :
  (∀ x, x ∈ l → (P x ↔ Q x)) → filter P l = filter Q l.
Proof.
  induction l as [|x l IH]; intros Hiff; [done|].
  rewrite !filter_cons, IH by (intros y Hy; apply Hiff; by right).
  destruct (decide (P x)) as [HP|HP].
  - rewrite decide_True; [done|]. apply Hiff; [left|done].
  - rewrite decide_False; [done|]. intros HQ. apply HP, Hiff; [left|done].
Qed.

Lemma dated_rows (rows : list Row) :
  dates_parse rows → filter (λ r, is_Some (pd.row_quarter r)) rows = dated rows.
Proof.
  intros Hp. unfold dated. apply filter_ext_in. intros r Hr.
  unfold pd.row_quarter. specialize (Hp r).
  destruct (InvoiceDate r) as [|t|raw].
  - split; [by intros [? ?]|done].
  - split; [done|by eexists].
  - by destruct (Hp raw Hr).
Qed.

(** X16. Binning by quarter loses no revenue: the revenue column of the
    result of [quarterly_revenue] adds up to the revenue
    ([UnitPrice * Quantity]) of all rows that have a date. *)
Theorem quarterly_revenue_total (st : Store) (transactions : loc) (rows : list Row) :
  st !! transactions = Some (Transactions rows) →
  dates_parse rows →
  some_dated rows →
  ∃ out,
    quarterly_revenue transactions st
      = (<[transactions := Transactions (with_revenue <$> rows)]> st
           ++ [RevenueTable out], Ok (length st)) ∧
    pd.qsum (out.*2) = pd.qsum (revenue <$> dated rows).
Proof.
  intros H Hp Hd.
  destruct (quarterly_revenue_bins _ _ _ H Hp Hd)
    as (first & last & Hrun & Hle & _ & _ & Hrange).
  eexists. split; [exact Hrun|].
  rewrite <- list_fmap_compose, <- (dated_rows rows Hp).
  apply (group_totals Qplus 0%Q Qplus_assoc_eq Qplus_comm_eq Qplus_0_l_eq
           pd.row_quarter revenue).
  - apply NoDup_seqZ.
  - intros r q Hr Hq. apply elem_of_seqZ. specialize (Hrange r q Hr Hq). lia.
Qed.

(** X17. A row dated in a month of the calendar is counted under the last
    day of its quarter: the result of [quarterly_revenue] has a row whose
    period is in the year of the date, in month 3, 6, 9 or 12, no earlier
    than the month of the date and less than three months after it, and
    whose revenue is the sum over the rows of that quarter. *)
Theorem quarterly_revenue_period
    (st : Store) (transactions : loc) (rows : list Row) (r : Row) (t : Timestamp) :
  st !! transactions = Some (Transactions rows) →
  dates_parse rows →
  r ∈ rows →
  InvoiceDate r = Datetime t →
  1 ≤ month t ≤ 12 →
  ∃ out period,
    quarterly_revenue transactions st
      = (<[transactions := Transactions (with_revenue <$> rows)]> st
           ++ [RevenueTable out], Ok (length st)) ∧
    (period, quarter_revenue (pd.quarter_index t) rows) ∈ out ∧
    year period = year t ∧
    month period ∈ [3; 6; 9; 12] ∧
    month t ≤ month period < month t + 3 ∧
    day period = (if bool_decide (month period ∈ [3; 12]) then 31 else 30).
Proof.
  intros H Hp Hr Ht Hm.
  assert (some_dated rows) as Hd by (by exists r, t).
  destruct (quarterly_revenue_bins _ _ _ H Hp Hd)
    as (first & last & Hrun & Hle & _ & _ & Hrange).
  assert (pd.row_quarter r = Some (pd.quarter_index t)) as Hq
    by (unfold pd.row_quarter; by rewrite Ht).
  specialize (Hrange r _ Hr Hq).
  destruct (quarter_end_of_timestamp t Hm) as (Hy & Hmonth & Hnear).
  exists ((λ q, (pd.quarter_end q, quarter_revenue q rows))
            <$> seqZ first (last - first + 1)), (pd.quarter_end (pd.quarter_index t)).
  split; [exact Hrun|]. split.
  { apply list_elem_of_fmap. exists (pd.quarter_index t). split; [done|].
    apply elem_of_seqZ. lia. }
  split; [done|]. split; [done|]. split; [done|].
  rewrite !elem_of_cons in Hmonth.
  destruct Hmonth as [Hm'|[Hm'|[Hm'|[Hm'|Hm']]]]; [..|by apply elem_of_nil in Hm'];
    unfold pd.quarter_end in *; cbn [month day] in *; by rewrite Hm'.
Qed.

(** ** The columns a call reads *)

Lemma fmap_eq_Forall2 {A B} (f : A → B) (l1 l2 : list A) :
  f <$> l1 = f <$> l2 → Forall2 (λ x y, f x = f y) l1 l2.
Proof.
  revert l2. induction l1 as [|x l1 IH]; intros [|y l2] Heq; try done.
  injection Heq as Hxy Heq. constructor; [done|by apply IH].
Qed.

Section same_columns.
Context {A B : Type} (cols : A → B).

Lemma omap_same_columns {C} (key : A → option C) (l1 l2 : list A) :
  (∀ x y, cols x = cols y → key x = key y) →
  Forall2 (λ x y, cols x = cols y) l1 l2 →
  omap key l1 = omap key l2.
Proof.
  intros Hkey. induction 1 as [|x y l1 l2 Hxy _ IH]; [done|].
  csimpl. by rewrite (Hkey x y Hxy), IH.
Qed.

Lemma filter_same_columns {C} (P : A → Prop) `{∀ x, Decision (P x)} (f : A → C)
    (l1 l2 : list A) :
  (∀ x y, cols x = cols y → (P x ↔ P y) ∧ f x = f y) →
  Forall2 (λ x y, cols x = cols y) l1 l2 →
  f <$> filter P l1 = f <$> filter P l2.
Proof.
  intros Hcols. induction 1 as [|x y l1 l2 Hxy _ IH]; [done|].
  destruct (Hcols x y Hxy) as [HP Hf]. rewrite !filter_cons.
  destruct (decide (P x)) as [Hx|Hx].
  - rewrite decide_True by (by apply HP). csimpl. by rewrite Hf, IH.
  - rewrite decide_False by (by rewrite <- HP). exact IH.
Qed.

End same_columns.

Lemma product_sales_same_columns (rows1 rows2 : list Row) :
  Forall2 (λ x y, (Description x, Quantity x) = (Description y, Quantity y))
    rows1 rows2 →
  product_sales rows1 = product_sales rows2.
Proof.
  intros Heq. unfold product_sales, pd.groupby, pd.group_keys.
  rewrite <- !list_fmap_compose.
  assert (omap (λ r, Some (Description r)) rows1
          = omap (λ r, Some (Description r)) rows2) as ->.
  { eapply omap_same_columns; [|exact Heq].
    intros x y Hxy. simpl in Hxy. by injection Hxy as -> _. }
  apply list_fmap_ext. intros i k _. simpl. do 2 f_equal.
  eapply (filter_same_columns _ _ Quantity); [|exact Heq].
  intros x y Hxy. simpl in Hxy. injection Hxy as Hd Hq.
  split; [by rewrite Hd|done].
Qed.

Lemma product_analysis_same_columns (rows1 rows2 : list Row) :
  Forall2 (λ x y, (Description x, Quantity x, UnitPrice x)
                  = (Description y, Quantity y, UnitPrice y)) rows1 rows2 →
  product_analysis rows1 = product_analysis rows2.
Proof.
  intros Heq. unfold product_analysis, pd.groupby, pd.group_keys.
  rewrite <- !list_fmap_compose.
  assert (omap (λ r, Some (Description r)) rows1
          = omap (λ r, Some (Description r)) rows2) as ->.
  { eapply omap_same_columns; [|exact Heq].
    intros x y Hxy. simpl in Hxy. by injection Hxy as -> _ _. }
  apply list_fmap_ext. intros i k _. simpl. f_equal; [f_equal|]; f_equal.
  - eapply (filter_same_columns _ _ (λ r, inject_Z (Quantity r))); [|exact Heq].
    intros x y Hxy. simpl in Hxy. injection Hxy as Hd Hq Hu.
    split; [by rewrite Hd|by rewrite Hq].
  - eapply (filter_same_columns _ _ UnitPrice); [|exact Heq].
    intros x y Hxy. simpl in Hxy. injection Hxy as Hd Hq Hu.
    split; [by rewrite Hd|done].
Qed.

(** X18. [high_demand_products] looks at the [Description] and
    [Quantity] cells only, and [purchase_patterns] at [Description],
    [Quantity] and [UnitPrice]: two tables that agree on these columns
    give the same result, whatever their customers, invoices and dates. *)
Theorem product_aggregators_read_their_columns
    (sort_values : ∀ A : Type, (A → Z) → list A → list A)
    (st1 st2 : Store) (df1 df2 : loc) (rows1 rows2 : list Row) (limit : Z) :
  st1 !! df1 = Some (Transactions rows1) →
  st2 !! df2 = Some (Transactions rows2) →
  ((λ r, (Description r, Quantity r)) <$> rows1
   = (λ r, (Description r, Quantity r)) <$> rows2 →
   ∃ out,
     high_demand_products sort_values df1 limit st1
       = (st1 ++ [ProductTable out], Ok (length st1)) ∧
     high_demand_products sort_values df2 limit st2
       = (st2 ++ [ProductTable out], Ok (length st2))) ∧
  ((λ r, (Description r, Quantity r, UnitPrice r)) <$> rows1
   = (λ r, (Description r, Quantity r, UnitPrice r)) <$> rows2 →
   ∃ out,
     purchase_patterns df1 st1 = (st1 ++ [PatternTable out], Ok (length st1)) ∧
     purchase_patterns df2 st2 = (st2 ++ [PatternTable out], Ok (length st2))).
Proof.
  intros H1 H2. split; intros Heq; apply fmap_eq_Forall2 in Heq; eexists.
  - rewrite (high_demand_products_run _ _ _ _ _ H1),
      (high_demand_products_run _ _ _ _ _ H2).
    unfold bestsellers. by rewrite (product_sales_same_columns _ _ Heq).
  - rewrite (purchase_patterns_run _ _ _ H1), (purchase_patterns_run _ _ _ H2).
    by rewrite (product_analysis_same_columns _ _ Heq).
Qed.

(** X19. [quarterly_revenue] looks at the [Quantity], [UnitPrice] and
    [InvoiceDate] cells only. In particular a [TransactionRevenue] column
    the table already has is not read: it is computed anew and
    overwritten. *)
Theorem quarterly_revenue_reads_its_columns
    (st1 st2 : Store) (df1 df2 : loc) (rows1 rows2 : list Row) :
  st1 !! df1 = Some (Transactions rows1) →
  st2 !! df2 = Some (Transactions rows2) →
  (λ r, (Quantity r, UnitPrice r, InvoiceDate r)) <$> rows1
  = (λ r, (Quantity r, UnitPrice r, InvoiceDate r)) <$> rows2 →
  dates_parse rows1 →
  some_dated rows1 →
  ∃ out,
    quarterly_revenue df1 st1
      = (<[df1 := Transactions (with_revenue <$> rows1)]> st1
           ++ [RevenueTable out], Ok (length st1)) ∧
    quarterly_revenue df2 st2
      = (<[df2 := Transactions (with_revenue <$> rows2)]> st2
           ++ [RevenueTable out], Ok (length st2)) ∧
    (∀ r, r ∈ with_revenue <$> rows2 → TransactionRevenue r = Some (revenue r)).
Proof.
  intros H1 H2 Heq Hp Hd. apply fmap_eq_Forall2 in Heq.
  assert (omap pd.row_quarter rows1 = omap pd.row_quarter rows2) as Hquarters.
  { eapply omap_same_columns; [|exact Heq].
    intros x y Hxy. simpl in Hxy. injection Hxy as _ _ Hdate.
    unfold pd.row_quarter. by rewrite Hdate. }
  assert (dates_parse rows2) as Hp2.
  { intros r raw Hr Hbad.
    apply list_elem_of_lookup in Hr as [i Hi].
    destruct (Forall2_lookup_r _ _ _ _ _ Heq Hi) as (r1 & Hi1 & Hcols).
    simpl in Hcols. injection Hcols as _ _ Hdate.
    apply (Hp r1 raw); [by eapply list_elem_of_lookup_2|congruence]. }
  destruct (some_dated_quarters rows1 Hd) as (q & qs & Hq).
  rewrite (quarterly_revenue_run _ _ _ H1 Hp), (quarterly_revenue_run _ _ _ H2 Hp2).
  rewrite (quarterly_summary_with_revenue _ _ _ Hq).
  rewrite (quarterly_summary_with_revenue rows2 q qs) by (by rewrite <- Hquarters).
  eexists. split; [done|]. split.
  - do 4 f_equal. apply list_fmap_ext. intros i b _. f_equal.
    unfold quarter_revenue. f_equal. symmetry.
    eapply (filter_same_columns _ _ revenue); [|exact Heq].
    intros x y Hxy. simpl in Hxy. injection Hxy as Hqty Hprice Hdate.
    unfold pd.row_quarter, revenue. by rewrite Hqty, Hprice, Hdate.
  - intros r Hr. by apply list_elem_of_fmap in Hr as (r0 & -> & _).
Qed.

(** ** What the write of quarterly_revenue does to later calls *)

Lemma with_revenue_columns {B} (cols : Row → B) (rows : list Row) :
  (∀ r, cols (with_revenue r) = cols r) →
  Forall2 (λ x y, cols x = cols y) (with_revenue <$> rows) rows.
Proof.
  intros Hcols. apply Forall2_fmap_l, Forall_Forall2_diag, Forall_forall.
  intros r _. apply Hcols.
Qed.

Lemma cleaned_data_with_revenue (rows : list Row) :
  cleaned_data (with_revenue <$> rows) = with_revenue <$> cleaned_data rows.
Proof.
  by rewrite !cleaned_data_filter, filter_fmap_comm.
Qed.

(** X20. The column [quarterly_revenue] writes into its input does not
    change what the other functions return for that table afterwards:
    [loyalty_customers], [high_demand_products] and [purchase_patterns]
    give the same tables as before the write, and [filter_data] keeps the
    same rows, which now carry the revenue. *)
Theorem later_calls_after_quarterly_revenue
    (sort_values : ∀ A : Type, (A → Z) → list A → list A)
    (st : Store) (df : loc) (rows : list Row) (min_purchases limit : Z) :
  st !! df = Some (Transactions rows) →
  dates_parse rows →
  some_dated rows →
  ∃ st' report,
    quarterly_revenue df st = (st', Ok report) ∧
    (∃ out,
       loyalty_customers sort_values df min_purchases st
         = (st ++ [LoyaltyTable out], Ok (length st)) ∧
       loyalty_customers sort_values df min_purchases st'
         = (st' ++ [LoyaltyTable out], Ok (length st'))) ∧
    (∃ out,
       high_demand_products sort_values df limit st
         = (st ++ [ProductTable out], Ok (length st)) ∧
       high_demand_products sort_values df limit st'
         = (st' ++ [ProductTable out], Ok (length st'))) ∧
    (∃ out,
       purchase_patterns df st = (st ++ [PatternTable out], Ok (length st)) ∧
       purchase_patterns df st' = (st' ++ [PatternTable out], Ok (length st'))) ∧
    (∃ kept,
       filter_data df st = (st ++ [Transactions kept], Ok (length st)) ∧
       filter_data df st'
         = (st' ++ [Transactions (with_revenue <$> kept)], Ok (length st'))).
Proof.
  intros H Hp Hd. pose proof (lookup_lt_Some _ _ _ H) as Hlt.
  destruct (quarterly_revenue_bins _ _ _ H Hp Hd) as (first & last & Hrun & _).
  eexists _, _. split; [exact Hrun|].
  match goal with |- context [?st1 ++ [RevenueTable ?out]] =>
    assert ((st1 ++ [RevenueTable out]) !! df
            = Some (Transactions (with_revenue <$> rows))) as H'
  end.
  { apply lookup_app_l_Some. by apply list_lookup_insert_eq. }
  split; [|split; [|split]]; eexists.
  - rewrite (loyalty_customers_run _ _ _ _ _ H), (loyalty_customers_run _ _ _ _ _ H').
    split; [done|]. unfold loyal_customers.
    rewrite (customer_purchases_pairs (with_revenue <$> rows) rows); [done|].
    unfold pd.dropna. rewrite filter_fmap_comm, <- list_fmap_compose. done.
  - rewrite (high_demand_products_run _ _ _ _ _ H),
      (high_demand_products_run _ _ _ _ _ H').
    split; [done|]. unfold bestsellers.
    by rewrite (product_sales_same_columns (with_revenue <$> rows) rows)
      by (by apply with_revenue_columns).
  - rewrite (purchase_patterns_run _ _ _ H), (purchase_patterns_run _ _ _ H').
    split; [done|].
    by rewrite (product_analysis_same_columns (with_revenue <$> rows) rows)
      by (by apply with_revenue_columns).
  - rewrite (filter_data_run _ _ _ H), (filter_data_run _ _ _ H').
    by rewrite cleaned_data_with_revenue.
Qed.

(** ** Loading the module *)

Section script_facts.
Import Script.
Variable sort_values : ∀ A : Type, (A → Z) → list A → list A.
Variable read_excel : string → M loc.

Lemma run_bind_done {A B} (m : Run A) (f : A → Run B) (s s' : State) (a : A) :
  m s = (s', Done a) → (m ≫= f) s = f a s'.
Proof. intros H. unfold mbind, Run_bind. by rewrite H. Qed.

Lemma run_bind_failed {A B} (m : Run A) (f : A → Run B) (s s' : State) (e : Error) :
  m s = (s', Failed e) → (m ≫= f) s = (s', Failed e).
Proof. intros H. unfold mbind, Run_bind. by rewrite H. Qed.

Lemma call_done {A} (m : M A) (s : State) (st : Store) (a : A) :
  m (frames s) = (st, Ok a) →
  call m s = (mkState (globals s) st (stdout s), Done a).
Proof. intros H. unfold call. by rewrite H. Qed.

Lemma call_failed {A} (m : M A) (s : State) (st : Store) (e : Exception) :
  m (frames s) = (st, Raise e) →
  call m s = (mkState (globals s) st (stdout s), Failed (Raised e)).
Proof. intros H. unfold call. by rewrite H. Qed.

Lemma print_done (show : DataFrame → DataFrame) (l : loc) (s : State) (f : DataFrame) :
  frames s !! l = Some f →
  print show l s
  = (mkState (globals s) (frames s) (stdout s ++ [PrintedFrame (show f)]), Done tt).
Proof. intros H. unfold print. by rewrite H. Qed.

Lemma filter_data_raises (st : Store) (dataset : loc) :
  (∀ rows, st !! dataset ≠ Some (Transactions rows)) →
  filter_data dataset st
  = (st, Raise (KeyError
                  (first_missing (from_option columns [] (st !! dataset))
                     ["CustomerID"; "Quantity"; "UnitPrice"]))).
Proof.
  intros Hne. unfold filter_data, mbind, M_bind, get_transactions.
  destruct (st !! dataset) as [[rows| | | |]|]; [by destruct (Hne rows)|done..].
Qed.

Ltac run_step tac :=
  erewrite run_bind_done by tac; cbv beta; cbn [globals frames stdout].

Ltac bound_names :=
  let x := fresh "x" in
  let v := fresh "v" in
  let Hx := fresh "Hx" in
  intros x [v Hx];
  repeat (apply lookup_insert_Some in Hx as [[<- _]|[_ Hx]];
          [apply list_elem_of_In; simpl; auto 10|]);
  by rewrite lookup_empty in Hx.

Ltac run_to_read_excel :=
  unfold module_body, at_load; do 4 run_step ltac:(reflexivity).

(** X21. Loading the module never runs to its end: whatever the reader
    does with the workbook, the statements outside the functions stop
    with an exception, and [quarterly_revenue], [high_demand_products],
    [purchase_patterns] and [answer_conceptual_questions], whose
    definitions come later in the file, are not bound when it stops. *)
Theorem module_load_never_finishes (st : Store) :
  ∃ final e,
    module_body sort_values read_excel (at_load st) = (final, Failed e) ∧
    ∀ late,
      late ∈ [ "quarterly_revenue"; "high_demand_products"; "purchase_patterns";
               "answer_conceptual_questions" ] →
      globals final !! late = None.
Proof.
  assert (∀ (g : gmap string Value) late,
            late ∈ [ "quarterly_revenue"; "high_demand_products";
                     "purchase_patterns"; "answer_conceptual_questions" ] →
            (∀ x, is_Some (g !! x) →
                  x ∈ [ "pd"; "import_data"; "filter_data"; "raw_data"; "clean_data";
                        "loyalty_customers"; "min_purchases" ]) →
            g !! late = None) as Hlate.
  { intros g late Hin Hg. apply eq_None_not_Some. intros Hs.
    apply Hg, list_elem_of_In in Hs. apply list_elem_of_In in Hin.
    simpl in Hin, Hs. intuition (subst; discriminate). }
  destruct (read_excel "Customer_Behavior.xlsx" st) as [st1 [raw|e]] eqn:Hread.
  - assert ((∃ rows, st1 !! raw = Some (Transactions rows)) ∨
            ¬ ∃ rows, st1 !! raw = Some (Transactions rows))
      as [[rows Hraw]|Hnone].
    { destruct (st1 !! raw) as [[rows| | | |]|]; [by left; exists rows|..];
        right; by intros [? ?]. }
    + run_to_read_excel.
      run_step ltac:(apply call_done; exact Hread).
      do 3 run_step ltac:(reflexivity).
      run_step ltac:(apply call_done; apply filter_data_run; exact Hraw).
      do 2 run_step ltac:(reflexivity).
      run_step ltac:(apply print_done; apply lookup_new_frame).
      do 3 run_step ltac:(reflexivity).
      erewrite run_bind_failed by reflexivity.
      eexists _, _. split; [done|]. intros late Hin. cbn [globals].
      apply Hlate; [done|]. bound_names.
    + run_to_read_excel.
      run_step ltac:(apply call_done; exact Hread).
      do 3 run_step ltac:(reflexivity).
      erewrite run_bind_failed
        by (apply call_failed; apply filter_data_raises; intros rows Hrows;
            apply Hnone; by exists rows).
      eexists _, _. split; [done|]. intros late Hin. cbn [globals].
      apply Hlate; [done|]. bound_names.
  - run_to_read_excel.
    erewrite run_bind_failed by (apply call_failed; exact Hread).
    eexists _, _. split; [done|]. intros late Hin. cbn [globals].
    apply Hlate; [done|]. bound_names.
Qed.

(** X22. When the reader loads the workbook as a transaction table, the
    module gets as far as the call of [loyalty_customers] and stops there
    with a [NameError]: [df_filtered] is read and was never bound. By
    then the table has been cleaned into a new frame, its first five rows
    have been printed, and the loaded table is as the reader left it. *)
Theorem module_load_stops_at_df_filtered
    (st st1 : Store) (raw : loc) (rows : list Row) :
  read_excel "Customer_Behavior.xlsx" st = (st1, Ok raw) →
  st1 !! raw = Some (Transactions rows) →
  ∃ final,
    module_body sort_values read_excel (at_load st)
      = (final, Failed (NameError "df_filtered")) ∧
    frames final = st1 ++ [Transactions (cleaned_data rows)] ∧
    stdout final = [PrintedFrame (Transactions (take 5 (cleaned_data rows)))] ∧
    globals final !! "raw_data" = Some (Frame raw) ∧
    globals final !! "clean_data" = Some (Frame (length st1)) ∧
    globals final !! "min_purchases" = Some (Int 5) ∧
    globals final !! "df_filtered" = None ∧
    globals final !! "loyal_customers_df" = None.
Proof.
  intros Hread Hraw. run_to_read_excel.
  run_step ltac:(apply call_done; exact Hread).
  do 3 run_step ltac:(reflexivity).
  run_step ltac:(apply call_done; apply filter_data_run; exact Hraw).
  do 2 run_step ltac:(reflexivity).
  run_step ltac:(apply print_done; apply lookup_new_frame).
  do 3 run_step ltac:(reflexivity).
  erewrite run_bind_failed by reflexivity.
  eexists. split; [done|]. cbn [globals frames stdout].
  repeat split; reflexivity.
Qed.

End script_facts.

(** ** The theorems above at sample tables *)

Ltac sample_dates_parse :=
  let r := fresh "r" in
  let raw := fresh "raw" in
  let Hr := fresh "Hr" in
  intros r raw Hr; apply list_elem_of_In in Hr; vm_compute in Hr;
  intuition (subst; discriminate).

Lemma loyalty_customers_count_bounds_witness :
  let st := [Transactions two_customers] in
  sorts_descending stable_sort_desc ∧
  st !! 0%nat = Some (Transactions two_customers) ∧
  ∃ out,
    loyalty_customers stable_sort_desc 0%nat 1 st
      = (st ++ [LoyaltyTable out], Ok (length st)) ∧
    (∀ c n, (c, n) ∈ out →
       1 ≤ n ≤ Z.of_nat (length (filter (λ r, CustomerID r = Some c) two_customers))) ∧
    (1 ≤ 1 → ∀ r c, r ∈ two_customers → CustomerID r = Some c → c ∈ out.*1) ∧
    (Z.of_nat (length two_customers) < 1 → out = []).
Proof.
  intros st. split; [apply stable_sort_desc_sorts|]. split; [reflexivity|].
  apply (loyalty_customers_count_bounds stable_sort_desc stable_sort_desc_sorts
           st 0%nat two_customers 1).
  reflexivity.
Defined.

Lemma loyalty_customers_threshold_witness :
  let st := [Transactions two_customers] in
  sorts_descending stable_sort_desc ∧
  st !! 0%nat = Some (Transactions two_customers) ∧
  1 ≤ 2 ∧
  ∃ out_low out_high,
    loyalty_customers stable_sort_desc 0%nat 1 st
      = (st ++ [LoyaltyTable out_low], Ok (length st)) ∧
    loyalty_customers stable_sort_desc 0%nat 2 st
      = (st ++ [LoyaltyTable out_high], Ok (length st)) ∧
    (∀ x, x ∈ out_high → x ∈ out_low) ∧
    (length out_high ≤ length out_low)%nat.
Proof.
  intros st. split; [apply stable_sort_desc_sorts|]. split; [reflexivity|].
  split; [lia|].
  apply (loyalty_customers_threshold stable_sort_desc stable_sort_desc_sorts
           st 0%nat two_customers 1 2); [reflexivity|lia].
Defined.

Lemma loyalty_customers_reads_two_columns_witness :
  let rows1 := ledger in
  let rows2 := (λ r, set_InvoiceDate r NaT) <$> pd.dropna CustomerID ledger in
  let st1 := [Transactions rows1] in
  let st2 := [Transactions rows2] in
  st1 !! 0%nat = Some (Transactions rows1) ∧
  st2 !! 0%nat = Some (Transactions rows2) ∧
  (λ r, (CustomerID r, InvoiceNo r)) <$> pd.dropna CustomerID rows1
  = (λ r, (CustomerID r, InvoiceNo r)) <$> pd.dropna CustomerID rows2 ∧
  ∃ out,
    loyalty_customers stable_sort_desc 0%nat 1 st1
      = (st1 ++ [LoyaltyTable out], Ok (length st1)) ∧
    loyalty_customers stable_sort_desc 0%nat 1 st2
      = (st2 ++ [LoyaltyTable out], Ok (length st2)).
Proof.
  intros rows1 rows2 st1 st2.
  split; [reflexivity|]. split; [reflexivity|]. split; [reflexivity|].
  apply (loyalty_customers_reads_two_columns stable_sort_desc st1 st2 0%nat 0%nat
           rows1 rows2 1); reflexivity.
Defined.

Lemma aggregators_on_empty_table_witness :
  let st := [Transactions []] in
  sorts_descending stable_sort_desc ∧
  st !! 0%nat = Some (Transactions []) ∧
  loyalty_customers stable_sort_desc 0%nat 1 st
    = (st ++ [LoyaltyTable []], Ok (length st)) ∧
  high_demand_products stable_sort_desc 0%nat (-3) st
    = (st ++ [ProductTable []], Ok (length st)) ∧
  purchase_patterns 0%nat st = (st ++ [PatternTable []], Ok (length st)).
Proof.
  intros st. split; [apply stable_sort_desc_sorts|]. split; [reflexivity|].
  apply (aggregators_on_empty_table stable_sort_desc stable_sort_desc_sorts
           st 0%nat 1 (-3)).
  reflexivity.
Defined.

Lemma high_demand_products_row_count_witness :
  let st := [Transactions three_products] in
  let products := length (remove_dups (Description <$> three_products)) in
  sorts_descending stable_sort_desc ∧
  st !! 0%nat = Some (Transactions three_products) ∧
  ∃ ranked out,
    high_demand_products stable_sort_desc 0%nat (-1) st
      = (st ++ [ProductTable out], Ok (length st)) ∧
    ranked ≡ₚ product_sales three_products ∧
    StronglySorted (descending snd) ranked ∧
    length ranked = products ∧
    (0 ≤ -1 →
       out = take (Z.to_nat (-1)) ranked ∧
       length out = (Z.to_nat (-1) `min` products)%nat) ∧
    (-1 < 0 →
       out = take (products - Z.to_nat (- -1)) ranked ∧
       length out = (products - Z.to_nat (- -1))%nat).
Proof.
  intros st products. split; [apply stable_sort_desc_sorts|]. split; [reflexivity|].
  apply (high_demand_products_row_count stable_sort_desc stable_sort_desc_sorts
           st 0%nat three_products (-1)).
  reflexivity.
Defined.

(** With [limit = -1] the product that sold least is left out. *)
Example high_demand_products_negative_limit :
  high_demand_products stable_sort_desc 0%nat (-1) [Transactions three_products]
  = ([Transactions three_products; ProductTable [("B", 9); ("C", 9)]], Ok 1%nat).
Proof. reflexivity. Qed.

Lemma high_demand_products_total_witness :
  let st := [Transactions three_products] in
  sorts_descending stable_sort_desc ∧
  st !! 0%nat = Some (Transactions three_products) ∧
  Z.of_nat (length (remove_dups (Description <$> three_products))) ≤ 10 ∧
  (∀ r, r ∈ three_products → 0 ≤ Quantity r) ∧
  total (Quantity <$> three_products) < 2 ^ 63 ∧
  ∃ out,
    high_demand_products stable_sort_desc 0%nat 10 st
      = (st ++ [ProductTable out], Ok (length st)) ∧
    pd.sum (out.*2) = pd.sum (Quantity <$> three_products) ∧
    ((∀ r, r ∈ three_products → 0 ≤ Quantity r) →
     total (Quantity <$> three_products) < 2 ^ 63 →
     total (out.*2) = total (Quantity <$> three_products)).
Proof.
  intros st. split; [apply stable_sort_desc_sorts|]. split; [reflexivity|].
  assert (Z.of_nat (length (remove_dups (Description <$> three_products))) ≤ 10)
    as Hlimit by (vm_compute; discriminate).
  split; [exact Hlimit|].
  split.
  { intros r Hr. apply list_elem_of_In in Hr. simpl in Hr.
    intuition (subst; simpl; lia). }
  split; [reflexivity|].
  exact (high_demand_products_total stable_sort_desc stable_sort_desc_sorts
           st 0%nat three_products 10 eq_refl Hlimit).
Defined.

Lemma grouping_ignores_row_order_witness :
  let rows1 := two_customers in
  let rows2 := reverse two_customers in
  let st1 := [Transactions rows1] in
  let st2 := [Transactions rows2] in
  st1 !! 0%nat = Some (Transactions rows1) ∧
  st2 !! 0%nat = Some (Transactions rows2) ∧
  rows1 ≡ₚ rows2 ∧
  (∃ out,
     loyalty_customers stable_sort_desc 0%nat 1 st1
       = (st1 ++ [LoyaltyTable out], Ok (length st1)) ∧
     loyalty_customers stable_sort_desc 0%nat 1 st2
       = (st2 ++ [LoyaltyTable out], Ok (length st2))) ∧
  (∃ out,
     high_demand_products stable_sort_desc 0%nat 2 st1
       = (st1 ++ [ProductTable out], Ok (length st1)) ∧
     high_demand_products stable_sort_desc 0%nat 2 st2
       = (st2 ++ [ProductTable out], Ok (length st2))) ∧
  (∃ out,
     purchase_patterns 0%nat st1 = (st1 ++ [PatternTable out], Ok (length st1)) ∧
     purchase_patterns 0%nat st2 = (st2 ++ [PatternTable out], Ok (length st2))).
Proof.
  intros rows1 rows2 st1 st2.
  assert (rows1 ≡ₚ rows2) as Hp by (symmetry; apply reverse_Permutation).
  split; [reflexivity|]. split; [reflexivity|]. split; [exact Hp|].
  exact (grouping_ignores_row_order stable_sort_desc st1 st2 0%nat 0%nat
           rows1 rows2 1 2 eq_refl eq_refl Hp).
Defined.

Lemma quarterly_revenue_ignores_row_order_witness :
  let rows1 := gap in
  let rows2 := reverse gap in
  let st1 := [Transactions rows1] in
  let st2 := [Transactions rows2] in
  st1 !! 0%nat = Some (Transactions rows1) ∧
  st2 !! 0%nat = Some (Transactions rows2) ∧
  rows1 ≡ₚ rows2 ∧
  dates_parse rows1 ∧
  some_dated rows1 ∧
  ∃ out,
    quarterly_revenue 0%nat st1
      = (<[0%nat := Transactions (with_revenue <$> rows1)]> st1
           ++ [RevenueTable out], Ok (length st1)) ∧
    quarterly_revenue 0%nat st2
      = (<[0%nat := Transactions (with_revenue <$> rows2)]> st2
           ++ [RevenueTable out], Ok (length st2)).
Proof.
  intros rows1 rows2 st1 st2.
  assert (rows1 ≡ₚ rows2) as Hp by (symmetry; apply reverse_Permutation).
  assert (dates_parse rows1) as Hparse by sample_dates_parse.
  assert (some_dated rows1) as Hd by (eexists _, _; split; [left|reflexivity]).
  split; [reflexivity|]. split; [reflexivity|]. split; [exact Hp|].
  split; [exact Hparse|]. split; [exact Hd|].
  exact (quarterly_revenue_ignores_row_order st1 st2 0%nat 0%nat rows1 rows2
           eq_refl eq_refl Hp Hparse Hd).
Defined.

Lemma cleaned_totals_nonnegative_witness :
  let st := [Transactions ledger] in
  sorts_descending stable_sort_desc ∧
  st !! 0%nat = Some (Transactions ledger) ∧
  total (Quantity <$> cleaned_data ledger) < 2 ^ 63 ∧
  ∃ st1 clean top summary,
    filter_data 0%nat st = (st1, Ok clean) ∧
    high_demand_products stable_sort_desc clean 5 st1
      = (st1 ++ [ProductTable top], Ok (length st1)) ∧
    (total (Quantity <$> cleaned_data ledger) < 2 ^ 63 →
     ∀ name sold, (name, sold) ∈ top →
       sold = quantity_sold name (cleaned_data ledger) ∧ 0 ≤ sold) ∧
    purchase_patterns clean st1
      = (st1 ++ [PatternTable summary], Ok (length st1)) ∧
    (∀ item mean_quantity mean_price,
       (item, mean_quantity, mean_price) ∈ summary →
       (0 <= mean_quantity)%Q ∧ (0 <= mean_price)%Q).
Proof.
  intros st. split; [apply stable_sort_desc_sorts|]. split; [reflexivity|].
  split; [reflexivity|].
  apply (cleaned_totals_nonnegative stable_sort_desc stable_sort_desc_sorts
           st 0%nat ledger 5).
  reflexivity.
Defined.

Lemma cleaned_revenue_nonnegative_witness :
  let st := [Transactions ledger] in
  st !! 0%nat = Some (Transactions ledger) ∧
  dates_parse (cleaned_data ledger) ∧
  some_dated (cleaned_data ledger) ∧
  ∃ st1 clean st2 report out,
    filter_data 0%nat st = (st1, Ok clean) ∧
    quarterly_revenue clean st1 = (st2, Ok report) ∧
    st2 !! report = Some (RevenueTable out) ∧
    (∀ period total, (period, total) ∈ out → (0 <= total)%Q) ∧
    clean ≠ 0%nat ∧
    st2 !! 0%nat = Some (Transactions ledger) ∧
    st2 !! clean = Some (Transactions (with_revenue <$> cleaned_data ledger)).
Proof.
  intros st.
  assert (dates_parse (cleaned_data ledger)) as Hparse by sample_dates_parse.
  assert (some_dated (cleaned_data ledger)) as Hd
    by (eexists _, _; split; [left|reflexivity]).
  split; [reflexivity|]. split; [exact Hparse|]. split; [exact Hd|].
  exact (cleaned_revenue_nonnegative st 0%nat ledger eq_refl Hparse Hd).
Defined.

Lemma quarterly_revenue_total_witness :
  let st := [Transactions undated] in
  st !! 0%nat = Some (Transactions undated) ∧
  dates_parse undated ∧
  some_dated undated ∧
  ∃ out,
    quarterly_revenue 0%nat st
      = (<[0%nat := Transactions (with_revenue <$> undated)]> st
           ++ [RevenueTable out], Ok (length st)) ∧
    pd.qsum (out.*2) = pd.qsum (revenue <$> dated undated).
Proof.
  intros st.
  assert (dates_parse undated) as Hparse by sample_dates_parse.
  assert (some_dated undated) as Hd by (eexists _, _; split; [left|reflexivity]).
  split; [reflexivity|]. split; [exact Hparse|]. split; [exact Hd|].
  exact (quarterly_revenue_total st 0%nat undated eq_refl Hparse Hd).
Defined.

Lemma quarterly_revenue_period_witness :
  let st := [Transactions gap] in
  let r := row (Some 12583) "536370" "BELL" 5 (1 # 1) (on 2011 7 9) in
  let t := mkTimestamp 2011 7 9 in
  st !! 0%nat = Some (Transactions gap) ∧
  dates_parse gap ∧
  r ∈ gap ∧
  InvoiceDate r = Datetime t ∧
  1 ≤ month t ≤ 12 ∧
  ∃ out period,
    quarterly_revenue 0%nat st
      = (<[0%nat := Transactions (with_revenue <$> gap)]> st
           ++ [RevenueTable out], Ok (length st)) ∧
    (period, quarter_revenue (pd.quarter_index t) gap) ∈ out ∧
    year period = year t ∧
    month period ∈ [3; 6; 9; 12] ∧
    month t ≤ month period < month t + 3 ∧
    day period = (if bool_decide (month period ∈ [3; 12]) then 31 else 30).
Proof.
  intros st r t.
  assert (dates_parse gap) as Hparse by sample_dates_parse.
  assert (r ∈ gap) as Hr by (do 2 right; left).
  assert (1 ≤ month t ≤ 12) as Hm by (simpl; lia).
  split; [reflexivity|]. split; [exact Hparse|]. split; [exact Hr|].
  split; [reflexivity|]. split; [exact Hm|].
  exact (quarterly_revenue_period st 0%nat gap r t eq_refl Hparse Hr eq_refl Hm).
Defined.

Lemma product_aggregators_read_their_columns_witness :
  let rows1 := three_products in
  let rows2 := (λ r, set_InvoiceDate r NaT) <$> three_products in
  let st1 := [Transactions rows1] in
  let st2 := [Transactions rows2] in
  st1 !! 0%nat = Some (Transactions rows1) ∧
  st2 !! 0%nat = Some (Transactions rows2) ∧
  (λ r, (Description r, Quantity r)) <$> rows1
  = (λ r, (Description r, Quantity r)) <$> rows2 ∧
  (λ r, (Description r, Quantity r, UnitPrice r)) <$> rows1
  = (λ r, (Description r, Quantity r, UnitPrice r)) <$> rows2 ∧
  (∃ out,
     high_demand_products stable_sort_desc 0%nat 2 st1
       = (st1 ++ [ProductTable out], Ok (length st1)) ∧
     high_demand_products stable_sort_desc 0%nat 2 st2
       = (st2 ++ [ProductTable out], Ok (length st2))) ∧
  (∃ out,
     purchase_patterns 0%nat st1 = (st1 ++ [PatternTable out], Ok (length st1)) ∧
     purchase_patterns 0%nat st2 = (st2 ++ [PatternTable out], Ok (length st2))).
Proof.
  intros rows1 rows2 st1 st2.
  split; [reflexivity|]. split; [reflexivity|].
  split; [reflexivity|]. split; [reflexivity|].
  destruct (product_aggregators_read_their_columns stable_sort_desc st1 st2
              0%nat 0%nat rows1 rows2 2 eq_refl eq_refl) as [Hsales Hpatterns].
  split; [apply Hsales|apply Hpatterns]; reflexivity.
Defined.

Lemma quarterly_revenue_reads_its_columns_witness :
  let rows1 := gap in
  let rows2 := (λ r, set_TransactionRevenue r (999 # 1)) <$> gap in
  let st1 := [Transactions rows1] in
  let st2 := [Transactions rows2] in
  st1 !! 0%nat = Some (Transactions rows1) ∧
  st2 !! 0%nat = Some (Transactions rows2) ∧
  (λ r, (Quantity r, UnitPrice r, InvoiceDate r)) <$> rows1
  = (λ r, (Quantity r, UnitPrice r, InvoiceDate r)) <$> rows2 ∧
  dates_parse rows1 ∧
  some_dated rows1 ∧
  ∃ out,
    quarterly_revenue 0%nat st1
      = (<[0%nat := Transactions (with_revenue <$> rows1)]> st1
           ++ [RevenueTable out], Ok (length st1)) ∧
    quarterly_revenue 0%nat st2
      = (<[0%nat := Transactions (with_revenue <$> rows2)]> st2
           ++ [RevenueTable out], Ok (length st2)) ∧
    (∀ r, r ∈ with_revenue <$> rows2 → TransactionRevenue r = Some (revenue r)).
Proof.
  intros rows1 rows2 st1 st2.
  assert (dates_parse rows1) as Hparse by sample_dates_parse.
  assert (some_dated rows1) as Hd by (eexists _, _; split; [left|reflexivity]).
  split; [reflexivity|]. split; [reflexivity|]. split; [reflexivity|].
  split; [exact Hparse|]. split; [exact Hd|].
  exact (quarterly_revenue_reads_its_columns st1 st2 0%nat 0%nat rows1 rows2
           eq_refl eq_refl eq_refl Hparse Hd).
Defined.

Lemma later_calls_after_quarterly_revenue_witness :
  let st := [Transactions two_customers] in
  st !! 0%nat = Some (Transactions two_customers) ∧
  dates_parse two_customers ∧
  some_dated two_customers ∧
  ∃ st' report,
    quarterly_revenue 0%nat st = (st', Ok report) ∧
    (∃ out,
       loyalty_customers stable_sort_desc 0%nat 1 st
         = (st ++ [LoyaltyTable out], Ok (length st)) ∧
       loyalty_customers stable_sort_desc 0%nat 1 st'
         = (st' ++ [LoyaltyTable out], Ok (length st'))) ∧
    (∃ out,
       high_demand_products stable_sort_desc 0%nat 2 st
         = (st ++ [ProductTable out], Ok (length st)) ∧
       high_demand_products stable_sort_desc 0%nat 2 st'
         = (st' ++ [ProductTable out], Ok (length st'))) ∧
    (∃ out,
       purchase_patterns 0%nat st = (st ++ [PatternTable out], Ok (length st)) ∧
       purchase_patterns 0%nat st' = (st' ++ [PatternTable out], Ok (length st'))) ∧
    (∃ kept,
       filter_data 0%nat st = (st ++ [Transactions kept], Ok (length st)) ∧
       filter_data 0%nat st'
         = (st' ++ [Transactions (with_revenue <$> kept)], Ok (length st'))).
Proof.
  intros st.
  assert (dates_parse two_customers) as Hparse by sample_dates_parse.
  assert (some_dated two_customers) as Hd
    by (eexists _, _; split; [left|reflexivity]).
  split; [reflexivity|]. split; [exact Hparse|]. split; [exact Hd|].
  exact (later_calls_after_quarterly_revenue stable_sort_desc st 0%nat
           two_customers 1 2 eq_refl Hparse Hd).
Defined.

Lemma module_load_stops_at_df_filtered_witness :
  let read_excel := Script.reads ledger in
  read_excel "Customer_Behavior.xlsx" [] = ([Transactions ledger], Ok 0%nat) ∧
  [Transactions ledger] !! 0%nat = Some (Transactions ledger) ∧
  ∃ final,
    Script.module_body stable_sort_desc read_excel (Script.at_load [])
      = (final, Script.Failed (Script.NameError "df_filtered")) ∧
    Script.frames final = [Transactions ledger] ++ [Transactions (cleaned_data ledger)] ∧
    Script.stdout final
      = [Script.PrintedFrame (Transactions (take 5 (cleaned_data ledger)))] ∧
    Script.globals final !! "raw_data" = Some (Script.Frame 0%nat) ∧
    Script.globals final !! "clean_data"
      = Some (Script.Frame (length [Transactions ledger])) ∧
    Script.globals final !! "min_purchases" = Some (Script.Int 5) ∧
    Script.globals final !! "df_filtered" = None ∧
    Script.globals final !! "loyal_customers_df" = None.
Proof.
  intros read_excel. split; [reflexivity|]. split; [reflexivity|].
  apply (module_load_stops_at_df_filtered stable_sort_desc read_excel
           [] [Transactions ledger] 0%nat ledger); reflexivity.
Defined.
